(** * Dynasty-format analyzer: a shallow embedding of
      [scripts/analyze_dynasty_format.py] and the properties its
      specification states about it.

    The script opens save archives, extracts one embedded XML document,
    reads the [Player] elements and reports how the Greek successor
    dynasties are encoded.  Everything the script computes itself is
    embedded as executable definitions.  What it asks of the operating
    system and of the Python standard library (stat, recursive globbing,
    opening a zip archive, the XML parser, date rendering) is gathered in
    one record, [World], whose fields are queried exactly where the
    script makes the corresponding call. *)

From Stdlib Require Import ZArith List Ascii String Strings.Byte.
From Stdlib Require Import Sorting.Sorted Sorting.Permutation.
From Stdlib Require Import DecimalString.
From stdpp Require Import base tactics option list gmap strings.
Import ListNotations.
Local Open Scope string_scope.
Local Open Scope list_scope.

(** ** Python values used by the script *)

Module Py.

(** A Python [str] is represented by its UTF-8 encoding; [bytes] are
    lists of bytes.  Text that was decoded or parsed never holds lone
    surrogates, so equality and suffix tests agree with Python's. *)

Definition in_range (lo hi : N) (b : byte) : bool :=
  ((lo <=? Byte.to_N b) && (Byte.to_N b <=? hi))%N.

Definition continuation : byte -> bool := in_range 0x80 0xBF.

(** Second byte of a three- or four-byte sequence: the ranges that
    exclude overlong forms, surrogates and code points above U+10FFFF. *)
Definition second_of_three (b0 b1 : byte) : bool :=
  if in_range 0xE0 0xE0 b0 then in_range 0xA0 0xBF b1
  else if in_range 0xED 0xED b0 then in_range 0x80 0x9F b1
  else continuation b1.

Definition second_of_four (b0 b1 : byte) : bool :=
  if in_range 0xF0 0xF0 b0 then in_range 0x90 0xBF b1
  else if in_range 0xF4 0xF4 b0 then in_range 0x80 0x8F b1
  else continuation b1.

(** Strict UTF-8 well-formedness, as [bytes.decode('utf-8')] demands. *)
Fixpoint utf8_valid (bs : list byte) : bool :=
  match bs with
  | [] => true
  | b0 :: r0 =>
    if in_range 0x00 0x7F b0 then utf8_valid r0
    else
      match r0 with
      | [] => false
      | b1 :: r1 =>
        if in_range 0xC2 0xDF b0 then continuation b1 && utf8_valid r1
        else
          match r1 with
          | [] => false
          | b2 :: r2 =>
            if in_range 0xE0 0xEF b0
            then second_of_three b0 b1 && continuation b2 && utf8_valid r2
            else
              match r2 with
              | [] => false
              | b3 :: r3 =>
                if in_range 0xF0 0xF4 b0
                then second_of_four b0 b1 && continuation b2
                     && continuation b3 && utf8_valid r3
                else false
              end
          end
      end
  end.

(** [data.decode('utf-8')]: [None] stands for [UnicodeDecodeError]. *)
Definition decode_utf8 (data : list byte) : option string :=
  if utf8_valid data then Some (string_of_list_byte data) else None.

(** [s.endswith(suffix)] *)
Definition endswith (s suffix : string) : bool :=
  let n := String.length s in
  let m := String.length suffix in
  (m <=? n)%nat && bool_decide (substring (n - m) m s = suffix).

(** [s * n] *)
Fixpoint repeat_str (s : string) (n : nat) : string :=
  match n with
  | O => EmptyString
  | S k => s +:+ repeat_str s k
  end.

(** [str(n)] for a length. *)
Definition str_of_nat (n : nat) : string :=
  NilEmpty.string_of_uint (Nat.to_uint n).

(** Truth value of an [Optional[str]]: [None] and the empty string are
    false. *)
Definition truthy (o : option string) : bool :=
  match o with
  | Some s => negb (bool_decide (s = EmptyString))
  | None => false
  end.

(** How an f-string renders an [Optional[str]]. *)
Definition format_opt (o : option string) : string :=
  match o with
  | Some s => s
  | None => "None"
  end.

(** [o or default] *)
Definition or_else (o : option string) (default : string) : string :=
  if truthy o then format_opt o else default.

(** [x in container] for a set of strings, [x] possibly [None]. *)
Definition in_set (o : option string) (s : gset string) : bool :=
  match o with
  | Some x => bool_decide (x ∈ s)
  | None => false
  end.

(** [x in (a, b, c)] for a tuple of strings, [x] possibly [None]. *)
Definition in_tuple (o : option string) (t : list string) : bool :=
  match o with
  | Some x => bool_decide (x ∈ t)
  | None => false
  end.

(** [x == 'literal'], [x] possibly [None]. *)
Definition eq_str (o : option string) (s : string) : bool :=
  bool_decide (o = Some s).

End Py.

(** ** Output and exceptions

    A computation writes text to standard output and then either
    returns a value or raises.  The output is the list of the texts the
    [print] calls wrote, terminator included. *)

Inductive outcome (A : Type) : Type :=
| Returns (a : A)
| Raises (what : string).
Arguments Returns {A} a.
Arguments Raises {A} what.

Definition IO (A : Type) : Type := (list string * outcome A)%type.

Definition io_ret {A} (a : A) : IO A := ([], Returns a).

Definition io_bind {A B} (m : IO A) (k : A -> IO B) : IO B :=
  match m with
  | (out, Returns a) => let '(out', r) := k a in (out ++ out', r)
  | (out, Raises e) => (out, Raises e)
  end.

Definition io_raise {A} (e : string) : IO A := ([], Raises e).

(** A library call that returns or raises without printing. *)
Definition io_lift {A} (o : outcome A) : IO A := ([], o).

(** [try: body / except Exception as e: handler e] *)
Definition io_catch {A} (body : IO A) (handler : string -> IO A) : IO A :=
  match body with
  | (out, Raises e) => let '(out', r) := handler e in (out ++ out', r)
  | (out, Returns a) => (out, Returns a)
  end.

Notation "'do' x <- m ; k" := (io_bind m (fun x => k))
  (at level 10, x at level 100, m at level 100, k at level 200, only parsing).
Notation "'do' m ; k" := (io_bind m (fun _ => k))
  (at level 10, m at level 100, k at level 200, only parsing).

Definition newline : string := String (ascii_of_nat 10) EmptyString.

(** [print(text)] *)
Definition print (text : string) : IO unit := ([text +:+ newline], Returns tt).

(** [print(text, end=terminator)] *)
Definition print_end (text terminator : string) : IO unit :=
  ([text +:+ terminator], Returns tt).

Definition stdout {A} (m : IO A) : list string := fst m.
Definition result {A} (m : IO A) : outcome A := snd m.

(** [for x in xs: body x] *)
Fixpoint for_each {A} (xs : list A) (body : A -> IO unit) : IO unit :=
  match xs with
  | [] => io_ret tt
  | x :: rest => do body x ; for_each rest body
  end.

(** A [for] loop that updates a local variable: [for x in xs: s = body s x] *)
Fixpoint io_fold {A S} (body : S -> A -> IO S) (xs : list A) (s : S) : IO S :=
  match xs with
  | [] => io_ret s
  | x :: rest => do s' <- body s x ; io_fold body rest s'
  end.

(** ** Element trees ([xml.etree.ElementTree]) *)

Local Unset Elimination Schemes.
Inductive Element : Type :=
  mkElement { tag : string; attrib : gmap string string; children : list Element }.
Local Set Elimination Schemes.

Module ET.

(** [elem.get(key)] *)
Definition get (elem : Element) (key : string) : option string :=
  attrib elem !! key.

(** [elem.iter(tag)]: the element itself when its tag matches, then
    the matches below each child, in document order. *)
Fixpoint iter (name : string) (elem : Element) : list Element :=
  (if bool_decide (tag elem = name) then [elem] else [])
  ++ flat_map (iter name) (children elem).

(** [elem.findall('.//name')].  ElementPath evaluates the step [//name]
    as [for e in elem.iter(name): if e is not elem: yield e]; the
    element itself can only be the first item [iter] yields. *)
Definition findall_descendants (name : string) (elem : Element) : list Element :=
  if bool_decide (tag elem = name) then tail (iter name elem) else iter name elem.

End ET.

(** ** Paths ([pathlib]) *)

Module Path.

(** A path is the text [str(path)] gives, in pathlib's normal form;
    [Path(p)] of such a text is the text itself. *)
Definition of_str (p : string) : string := p.

Definition slash : ascii := ascii_of_nat 47.
Definition dot : ascii := ascii_of_nat 46.

Fixpoint contains (c : ascii) (s : string) : bool :=
  match s with
  | EmptyString => false
  | String a rest => bool_decide (a = c) || contains c rest
  end.

(** [path.name]: the final component. *)
Fixpoint name (p : string) : string :=
  match p with
  | EmptyString => EmptyString
  | String c rest =>
    if contains slash rest then name rest
    else if bool_decide (c = slash) then rest
    else p
  end.

(** [s.rfind(c)], [None] for -1. *)
Fixpoint rfind (c : ascii) (s : string) : option nat :=
  match s with
  | EmptyString => None
  | String a rest =>
    match rfind c rest with
    | Some i => Some (S i)
    | None => if bool_decide (a = c) then Some O else None
    end
  end.

(** [path.suffix]: [name[i:]] for [i = name.rfind('.')] when
    [0 < i < len(name) - 1], else the empty string. *)
Definition suffix (p : string) : string :=
  let nm := name p in
  match rfind dot nm with
  | Some i =>
    if ((0 <? i) && (i <? String.length nm - 1))%nat
    then substring i (String.length nm - i) nm
    else EmptyString
  | None => EmptyString
  end.

(** [path / child] *)
Definition join (p child : string) : string :=
  p +:+ String slash EmptyString +:+ child.

End Path.

(** ** The world outside the script *)

Inductive file_type : Type := RegularFile | Directory | OtherFile.

Record stat_result : Type := { st_type : file_type; st_mtime : Z }.

(** An opened [zipfile.ZipFile]: [zf.namelist()] and [zf.read(name)].
    A raised exception carries the text [str(e)]. *)
Record ZipFile : Type := {
  namelist : list string;
  read : string -> outcome (list byte);
}.

(** [st_mtime] is a finite float of which the script uses the order and
    the rendering by [strftime]; it is modelled by an integer time stamp. *)
Record World : Type := {
  (** [Path.home()] *)
  home : string;
  (** [os.stat(path)], following links; [None] when it raises [OSError]. *)
  stat : string -> option stat_result;
  (** [list(path.rglob('*.zip'))], in enumeration order. *)
  rglob_zip : string -> list string;
  (** [zipfile.ZipFile(path, 'r')] *)
  zipfile_open : string -> outcome ZipFile;
  (** The text of the [UnicodeDecodeError] raised for ill-formed bytes. *)
  decode_error : list byte -> string;
  (** [ET.fromstring(text)]; [Raises] stands for [ET.ParseError]. *)
  fromstring : string -> outcome Element;
  (** [datetime.fromtimestamp(t).strftime('%Y-%m-%d %H:%M')] *)
  strftime_minutes : Z -> string;
}.

Section Files.

Variable w : World.

(** [path.exists()] *)
Definition path_exists (p : string) : bool :=
  match stat w p with Some _ => true | None => false end.

(** [path.is_file()] *)
Definition is_file (p : string) : bool :=
  match stat w p with
  | Some {| st_type := RegularFile |} => true
  | _ => false
  end.

(** [path.is_dir()] *)
Definition is_dir (p : string) : bool :=
  match stat w p with
  | Some {| st_type := Directory |} => true
  | _ => false
  end.

(** [path.stat().st_mtime] *)
Definition path_mtime (p : string) : outcome Z :=
  match stat w p with
  | Some st => Returns (st_mtime st)
  | None => Raises "FileNotFoundError"
  end.

(** [data.decode('utf-8')] *)
Definition decode (data : list byte) : IO string :=
  match Py.decode_utf8 data with
  | Some text => io_ret text
  | None => io_raise (decode_error w data)
  end.

End Files.

(** ** The script: constants and data *)

Definition DIADOCHI_NATIONS : gset string :=
  {[ "NATION_SELEUCUS"; "NATION_ANTIGONUS"; "NATION_PTOLEMY" ]}.

Definition EXPECTED_MAPPINGS : gmap string (string * string) :=
  <[ "NATION_SELEUCUS" := ("NATION_GREECE", "DYNASTY_SELEUCID") ]>
  (<[ "NATION_ANTIGONUS" := ("NATION_GREECE", "DYNASTY_ANTIGONID") ]>
  (<[ "NATION_PTOLEMY" := ("NATION_GREECE", "DYNASTY_PTOLEMY") ]> ∅)).

(** The tuple literal of the modern-form test. *)
Definition DIADOCHI_DYNASTIES : list string :=
  [ "DYNASTY_SELEUCID"; "DYNASTY_ANTIGONID"; "DYNASTY_PTOLEMY" ].

(** The dictionary [player_data], whose four keys are fixed. *)
Record PlayerData : Type := {
  id : option string;
  name : option string;
  nation : option string;
  dynasty : option string;
}.

Record SaveFileAnalysis : Type := {
  filepath : string;
  filename : string;
  file_mtime : option Z;
  game_id : option string;
  game_version : option string;
  save_date : option string;
  players : list PlayerData;
  has_diadochi : bool;
  diadochi_as_nations : bool;
  diadochi_as_dynasties : bool;
}.

(** [nation in DIADOCHI_NATIONS] *)
Definition is_legacy (p : PlayerData) : bool :=
  Py.in_set (nation p) DIADOCHI_NATIONS.

(** [nation == 'NATION_GREECE' and dynasty in (...)] *)
Definition is_modern (p : PlayerData) : bool :=
  Py.eq_str (nation p) "NATION_GREECE"
  && Py.in_tuple (dynasty p) DIADOCHI_DYNASTIES.

Section Analysis.

Variable w : World.

(** [SaveFileAnalysis.__init__] *)
Definition new_analysis (path : string) : SaveFileAnalysis :=
  {| filepath := path;
     filename := Path.name path;
     file_mtime :=
       if path_exists w path
       then match stat w path with Some st => Some (st_mtime st) | None => None end
       else None;
     game_id := None;
     game_version := None;
     save_date := None;
     players := [];
     has_diadochi := false;
     diadochi_as_nations := false;
     diadochi_as_dynasties := false |}.

(** [zf.read(member).decode('utf-8')] *)
Definition read_text (zf : ZipFile) (member : string) : IO string :=
  do data <- io_lift (read zf member) ;
  decode w data.

Definition extract_xml_from_save (save_path : string) : IO (option string) :=
  io_catch
    (do zf <- io_lift (zipfile_open w save_path) ;
     let file_list := namelist zf in
     if bool_decide ("game.xml" ∈ file_list) then
       do text <- read_text zf "game.xml" ;
       io_ret (Some text)
     else
       let xml_files := List.filter (fun f => Py.endswith f ".xml") file_list in
       match xml_files with
       | first :: _ =>
         do text <- read_text zf first ;
         io_ret (Some text)
       | [] =>
         do print ("Warning: No .xml file found in " +:+ Path.name save_path) ;
         io_ret None
       end)
    (fun e =>
       do print ("Error reading " +:+ Path.name save_path +:+ ": " +:+ e) ;
       io_ret None).

(** The dictionary built from one [Player] element. *)
Definition player_data_of (player_elem : Element) : PlayerData :=
  {| id := ET.get player_elem "ID";
     name := ET.get player_elem "Name";
     nation := ET.get player_elem "Nation";
     dynasty := ET.get player_elem "Dynasty" |}.

(** The metadata assignments from the root element. *)
Definition set_metadata (analysis : SaveFileAnalysis) (root : Element)
  : SaveFileAnalysis :=
  {| filepath := filepath analysis;
     filename := filename analysis;
     file_mtime := file_mtime analysis;
     game_id := ET.get root "GameId";
     game_version := ET.get root "Version";
     save_date := ET.get root "SaveDate";
     players := players analysis;
     has_diadochi := has_diadochi analysis;
     diadochi_as_nations := diadochi_as_nations analysis;
     diadochi_as_dynasties := diadochi_as_dynasties analysis |}.

(** One turn of the loop over the [Player] elements. *)
Definition analyze_player (analysis : SaveFileAnalysis) (player_elem : Element)
  : SaveFileAnalysis :=
  let player_data := player_data_of player_elem in
  let legacy := is_legacy player_data in
  let modern := is_modern player_data in
  {| filepath := filepath analysis;
     filename := filename analysis;
     file_mtime := file_mtime analysis;
     game_id := game_id analysis;
     game_version := game_version analysis;
     save_date := save_date analysis;
     players := players analysis ++ [player_data];
     has_diadochi :=
       if modern then true else if legacy then true else has_diadochi analysis;
     diadochi_as_nations :=
       if legacy then true else diadochi_as_nations analysis;
     diadochi_as_dynasties :=
       if modern then true else diadochi_as_dynasties analysis |}.

(** The part of [analyze_save_file] that follows a successful parse. *)
Definition analyze_root (analysis : SaveFileAnalysis) (root : Element)
  : SaveFileAnalysis :=
  fold_left analyze_player (ET.findall_descendants "Player" root)
            (set_metadata analysis root).

Definition analyze_save_file (save_path : string) : IO (option SaveFileAnalysis) :=
  let analysis := new_analysis save_path in
  do xml_content <- extract_xml_from_save save_path ;
  if negb (Py.truthy xml_content) then io_ret None
  else
    match fromstring w (Py.format_opt xml_content) with
    | Raises e =>
      do print ("XML parse error in " +:+ Path.name save_path +:+ ": " +:+ e) ;
      io_ret None
    | Returns root => io_ret (Some (analyze_root analysis root))
    end.

End Analysis.

(** ** Discovery *)

Section Discovery.

Variable w : World.

(** One turn of the loop over the search paths. *)
Definition visit_search_path (save_files : list string) (search_path : string)
  : IO (list string) :=
  if negb (path_exists w search_path) then
    do print ("Path does not exist: " +:+ search_path) ;
    io_ret save_files
  else if is_file w search_path && bool_decide (Path.suffix search_path = ".zip") then
    io_ret (save_files ++ [search_path])
  else if is_dir w search_path then
    io_ret (save_files ++ rglob_zip w search_path)
  else io_ret save_files.

(** The keys [p.stat().st_mtime], computed for every item before sorting. *)
Fixpoint decorate (paths : list string) : outcome (list (Z * string)) :=
  match paths with
  | [] => Returns []
  | p :: rest =>
    match path_mtime w p with
    | Raises e => Raises e
    | Returns t =>
      match decorate rest with
      | Raises e => Raises e
      | Returns keyed => Returns ((t, p) :: keyed)
      end
    end
  end.

(** [sorted] is stable: an item goes before the first one whose key is
    not smaller, and items are inserted from the last to the first. *)
Fixpoint insert_keyed (x : Z * string) (sorted : list (Z * string))
  : list (Z * string) :=
  match sorted with
  | [] => [x]
  | y :: rest =>
    if (fst x <=? fst y)%Z then x :: y :: rest
    else y :: insert_keyed x rest
  end.

Definition sort_keyed (keyed : list (Z * string)) : list (Z * string) :=
  fold_right insert_keyed [] keyed.

(** [sorted(save_files, key=lambda p: p.stat().st_mtime)] *)
Definition sorted_by_mtime (save_files : list string) : outcome (list string) :=
  match decorate save_files with
  | Raises e => Raises e
  | Returns keyed => Returns (map snd (sort_keyed keyed))
  end.

Definition find_save_files (search_paths : list string) : IO (list string) :=
  do save_files <- io_fold visit_search_path search_paths [] ;
  io_lift (sorted_by_mtime save_files).

End Discovery.

(** ** Reporting *)

Section Report.

Variable w : World.

(** Truth value of a list. *)
Definition nonempty {A} (l : list A) : bool :=
  match l with [] => false | _ :: _ => true end.

(** The [if as_nations and as_dynasties: ... elif ... elif ...] block. *)
Definition print_format_verdict (as_nations as_dynasties : list SaveFileAnalysis)
  : IO unit :=
  if nonempty as_nations && nonempty as_dynasties then
    do print (newline +:+ "⚠️  WARNING: BOTH FORMATS DETECTED!") ;
    print "   This confirms the format changed between game versions."
  else if nonempty as_nations then
    print (newline +:+ "✓  All Diadochi encoded as separate nations (legacy format)")
  else if nonempty as_dynasties then
    print (newline +:+ "✓  All Diadochi encoded as dynasties (modern format)")
  else io_ret tt.

(** The records shown for one archive. *)
Definition diadochi_players (analysis : SaveFileAnalysis) : list PlayerData :=
  List.filter (fun p => is_legacy p || is_modern p) (players analysis).

(** [EXPECTED_MAPPINGS[nation]] *)
Definition expected_mapping (nation : option string) : IO (string * string) :=
  match nation ≫= (fun n => EXPECTED_MAPPINGS !! n) with
  | Some expected => io_ret expected
  | None => io_raise "KeyError"
  end.

(** One turn of the loop over [diadochi_players]. *)
Definition print_player (player : PlayerData) : IO unit :=
  let nation := nation player in
  let dynasty := Py.or_else (dynasty player) "None" in
  do print ("    Player: " +:+ Py.format_opt (name player)) ;
  do print ("      Nation=" +:+ Py.format_opt nation +:+ ", Dynasty=" +:+ dynasty) ;
  if Py.in_set nation DIADOCHI_NATIONS then
    do expected <- expected_mapping nation ;
    do print "      → Format: LEGACY (separate nation)" ;
    print ("      → Expected modern: Nation=" +:+ fst expected
           +:+ ", Dynasty=" +:+ snd expected)
  else
    print "      → Format: MODERN (dynasty-based)".

(** [datetime.datetime.fromtimestamp(t).strftime(...)]; [None] is a
    [TypeError]. *)
Definition format_mtime (t : option Z) : IO string :=
  match t with
  | Some t => io_ret (strftime_minutes w t)
  | None => io_raise "TypeError"
  end.

(** One turn of the loop over [with_diadochi]. *)
Definition print_archive (analysis : SaveFileAnalysis) : IO unit :=
  do date_str <- format_mtime (file_mtime analysis) ;
  do print (newline +:+ filename analysis) ;
  do print ("  Modified: " +:+ date_str) ;
  do (if Py.truthy (game_version analysis)
      then print ("  Version: " +:+ Py.format_opt (game_version analysis))
      else io_ret tt) ;
  do (if Py.truthy (save_date analysis)
      then print ("  Save Date: " +:+ Py.format_opt (save_date analysis))
      else io_ret tt) ;
  for_each (diadochi_players analysis) print_player.

(** The banner and the four counts. *)
Definition print_counts (analyses : list SaveFileAnalysis) : IO unit :=
  do print (newline +:+ Py.repeat_str "=" 80) ;
  do print "DYNASTY FORMAT ANALYSIS SUMMARY" ;
  do print (Py.repeat_str "=" 80) ;
  let total := length analyses in
  let with_diadochi := List.filter has_diadochi analyses in
  let as_nations := List.filter diadochi_as_nations analyses in
  let as_dynasties := List.filter diadochi_as_dynasties analyses in
  do print (newline +:+ "Total save files analyzed: " +:+ Py.str_of_nat total) ;
  do print ("Files with Diadochi (Greek successors): "
            +:+ Py.str_of_nat (length with_diadochi)) ;
  do print ("  - Encoded as separate nations: " +:+ Py.str_of_nat (length as_nations)) ;
  print ("  - Encoded as dynasties: " +:+ Py.str_of_nat (length as_dynasties)).

(** The detailed breakdown. *)
Definition print_breakdown (analyses : list SaveFileAnalysis) : IO unit :=
  let with_diadochi := List.filter has_diadochi analyses in
  if nonempty with_diadochi then
    do print (newline +:+ Py.repeat_str "-" 80) ;
    do print "DETAILED BREAKDOWN" ;
    do print (Py.repeat_str "-" 80) ;
    for_each with_diadochi print_archive
  else io_ret tt.

Definition print_analysis_summary (analyses : list SaveFileAnalysis) : IO unit :=
  let as_nations := List.filter diadochi_as_nations analyses in
  let as_dynasties := List.filter diadochi_as_dynasties analyses in
  do print_counts analyses ;
  do print_format_verdict as_nations as_dynasties ;
  print_breakdown analyses.

End Report.

(** ** The driver *)

Section Main.

Variable w : World.

Definition default_paths : list string :=
  let docs := Path.join (Path.join (Path.join (home w) "Documents") "My Games") "OldWorld" in
  let lib := Path.join (Path.join (Path.join (home w) "Library") "Application Support") "OldWorld" in
  [ Path.join docs "Save"; Path.join docs "Saves";
    Path.join lib "Save"; Path.join lib "Saves" ].

(** The search paths chosen from [sys.argv = prog :: args]. *)
Definition resolve_search_paths (prog : string) (args : list string) : list string :=
  if (1 <? length (prog :: args))%nat
  then map Path.of_str args
  else List.filter (path_exists w) default_paths.

(** One turn of the loop over the save files. *)
Definition process_save_file (analyses : list SaveFileAnalysis) (save_file : string)
  : IO (list SaveFileAnalysis) :=
  do print_end ("Analyzing: " +:+ Path.name save_file +:+ "...") " " ;
  do analysis <- analyze_save_file w save_file ;
  match analysis with
  | Some a =>
    let status := if has_diadochi a then "✓" else "-" in
    do print (status +:+ " (" +:+ Py.str_of_nat (length (players a)) +:+ " players)") ;
    io_ret (analyses ++ [a])
  | None =>
    do print "✗ (failed)" ;
    io_ret analyses
  end.

Definition main (prog : string) (args : list string) : IO Z :=
  do print "Old World Save File Dynasty Format Analyzer" ;
  do print (Py.repeat_str "=" 80) ;
  let search_paths := resolve_search_paths prog args in
  if negb (nonempty search_paths) then
    do print "No save directories found. Please provide a path as an argument." ;
    do print ("Usage: " +:+ prog +:+ " <path_to_saves>") ;
    io_ret 1%Z
  else
    do print (newline +:+ "Searching in:") ;
    do for_each search_paths (fun path => print ("  - " +:+ path)) ;
    do save_files <- find_save_files w search_paths ;
    if negb (nonempty save_files) then
      do print (newline +:+ "No save files found!") ;
      io_ret 1%Z
    else
      do print (newline +:+ "Found " +:+ Py.str_of_nat (length save_files)
                +:+ " save file(s)") ;
      do print ("Analyzing..." +:+ newline) ;
      do analyses <- io_fold process_save_file save_files [] ;
      do print_analysis_summary w analyses ;
      io_ret 0%Z.


End Main.

(** ** Sample documents and worlds *)

Module Samples.

Definition attrs (kvs : list (string * string)) : gmap string string :=
  list_to_map kvs.

Definition seleucus_player : Element :=
  mkElement "Player"
    (attrs [("ID", "0"); ("Name", "Seleucus"); ("Nation", "NATION_SELEUCUS")]) [].

Definition ptolemy_player : Element :=
  mkElement "Player"
    (attrs [("ID", "1"); ("Name", "Ptolemy"); ("Nation", "NATION_GREECE");
            ("Dynasty", "DYNASTY_PTOLEMY")]) [].

Definition rome_player : Element :=
  mkElement "Player" (attrs [("ID", "2"); ("Nation", "NATION_ROME")]) [].

(** [<Root Version='1.0'><Player .../></Root>] *)
Definition legacy_root : Element :=
  mkElement "Root" (attrs [("GameId", "g1"); ("Version", "1.0")]) [seleucus_player].

(** A [Player] nested two levels down, next to a modern one. *)
Definition nested_root : Element :=
  mkElement "Root" ∅
    [ mkElement "Game" ∅ [ mkElement "Team" ∅ [rome_player]; ptolemy_player ] ].

(** A document whose root element is itself named [Player]. *)
Definition player_root : Element :=
  mkElement "Player" (attrs [("Nation", "NATION_PTOLEMY")]) [].

(** A document without any successor dynasty. *)
Definition plain_root : Element :=
  mkElement "Root" (attrs [("GameId", "g2")]) [rome_player; mkElement "Player" ∅ []].

Definition legacy_text : string := "<Root><Player Nation='NATION_SELEUCUS'/></Root>".
Definition nested_text : string := "<Root><Game><Team><Player/></Team><Player/></Game></Root>".
Definition player_text : string := "<Player Nation='NATION_PTOLEMY'/>".
Definition plain_text : string := "<Root><Player Nation='NATION_ROME'/><Player/></Root>".

(** A parser table for the sample texts; everything else is rejected. *)
Definition sample_fromstring (text : string) : outcome Element :=
  if bool_decide (text = legacy_text) then Returns legacy_root
  else if bool_decide (text = nested_text) then Returns nested_root
  else if bool_decide (text = player_text) then Returns player_root
  else if bool_decide (text = plain_text) then Returns plain_root
  else Raises "syntax error: line 1, column 0".

Definition archive (members : list (string * string)) : ZipFile :=
  {| namelist := map fst members;
     read := fun member =>
       match list_find (fun m => fst m = member) (reverse members) with
       | Some (_, m) => Returns (list_byte_of_string (snd m))
       | None => Raises "There is no item named that in the archive"
       end |}.

(** A directory [saves] with three archives: [a.zip] holds a legacy
    record, [b.zip] holds no match and [c.zip] is not a zip file.
    Beside it: [empty.zip], whose document is empty; [noxml.zip], with
    no document; [player.zip], whose root element is a [Player];
    [nested.zip], with nested players. *)
Definition sample_stat (p : string) : option stat_result :=
  if bool_decide (p = "saves") then Some {| st_type := Directory; st_mtime := 5 |}
  else if bool_decide (p = "saves/a.zip") then Some {| st_type := RegularFile; st_mtime := 30 |}
  else if bool_decide (p = "saves/b.zip") then Some {| st_type := RegularFile; st_mtime := 10 |}
  else if bool_decide (p = "saves/c.zip") then Some {| st_type := RegularFile; st_mtime := 20 |}
  else if bool_decide (p = "empty.zip") then Some {| st_type := RegularFile; st_mtime := 40 |}
  else if bool_decide (p = "noxml.zip") then Some {| st_type := RegularFile; st_mtime := 50 |}
  else if bool_decide (p = "player.zip") then Some {| st_type := RegularFile; st_mtime := 60 |}
  else if bool_decide (p = "nested.zip") then Some {| st_type := RegularFile; st_mtime := 70 |}
  else None.

Definition sample_open (p : string) : outcome ZipFile :=
  if bool_decide (p = "saves/a.zip")
  then Returns (archive [("notes.xml", nested_text); ("game.xml", legacy_text)])
  else if bool_decide (p = "saves/b.zip")
  then Returns (archive [("readme.txt", "hello"); ("save.xml", plain_text);
                         ("other.xml", legacy_text)])
  else if bool_decide (p = "saves/c.zip") then Raises "File is not a zip file"
  else if bool_decide (p = "empty.zip") then Returns (archive [("game.xml", EmptyString)])
  else if bool_decide (p = "noxml.zip") then Returns (archive [("readme.txt", "hello")])
  else if bool_decide (p = "player.zip") then Returns (archive [("game.xml", player_text)])
  else if bool_decide (p = "nested.zip") then Returns (archive [("deep.xml", nested_text)])
  else Raises "No such file or directory".

Definition sample_world : World :=
  {| home := "/home/user";
     stat := sample_stat;
     rglob_zip := fun p =>
       if bool_decide (p = "saves")
       then ["saves/a.zip"; "saves/b.zip"; "saves/c.zip"] else [];
     zipfile_open := sample_open;
     decode_error := fun _ => "'utf-8' codec can't decode bytes";
     fromstring := sample_fromstring;
     strftime_minutes := fun t => "1970-01-01 00:" +:+ Py.str_of_nat (Z.to_nat t) |}.

Definition legacy_analysis : SaveFileAnalysis :=
  analyze_root (new_analysis sample_world "saves/a.zip") legacy_root.

Definition nested_analysis : SaveFileAnalysis :=
  analyze_root (new_analysis sample_world "nested.zip") nested_root.

End Samples.

(** ** Vocabulary of the specification *)

(** Every element of a document in document order, the root included. *)
Fixpoint subtree (e : Element) : list Element :=
  e :: flat_map subtree (children e).

(** The elements strictly below an element, in document order. *)
Definition descendants (e : Element) : list Element :=
  flat_map subtree (children e).

Definition named (n : string) (e : Element) : bool := bool_decide (tag e = n).

(** The record a [Player] element stands for: each field is the
    attribute when the element has it and unset otherwise. *)
Definition record_of (e : Element) : PlayerData :=
  {| id := attrib e !! "ID";
     name := attrib e !! "Name";
     nation := attrib e !! "Nation";
     dynasty := attrib e !! "Dynasty" |}.

(** Legacy form: the nation is one of the three successor states. *)
Definition legacy_form (p : PlayerData) : Prop :=
  nation p = Some "NATION_SELEUCUS"
  \/ nation p = Some "NATION_ANTIGONUS"
  \/ nation p = Some "NATION_PTOLEMY".

(** Modern form: the parent nation with one of the three dynasties. *)
Definition modern_form (p : PlayerData) : Prop :=
  nation p = Some "NATION_GREECE"
  /\ (dynasty p = Some "DYNASTY_SELEUCID"
      \/ dynasty p = Some "DYNASTY_ANTIGONID"
      \/ dynasty p = Some "DYNASTY_PTOLEMY").

(** The records of every [Player] element of the whole tree, the root
    element included. *)
Definition players_of_whole_tree (root : Element) : list PlayerData :=
  map record_of (List.filter (named "Player") (subtree root)).

(** The records of the [Player] elements below the root. *)
Definition players_below_root (root : Element) : list PlayerData :=
  map record_of (List.filter (named "Player") (descendants root)).

(** What an analysis run hands back, [None] when the archive is skipped. *)
Definition analysis_of (w : World) (save_path : string) : option SaveFileAnalysis :=
  match result (analyze_save_file w save_path) with
  | Returns a => a
  | Raises _ => None
  end.

(** The claim that the [Player] elements of the whole tree, the root
    included, are the records of a parsed document. *)
Definition whole_tree_recorded (w : World) (save_path : string) : Prop :=
  forall text root,
    result (extract_xml_from_save w save_path) = Returns (Some text) ->
    text <> EmptyString ->
    fromstring w text = Returns root ->
    exists a,
      result (analyze_save_file w save_path) = Returns (Some a)
      /\ players a = players_of_whole_tree root.

(** A member name that ends in [.xml]. *)
Definition ends_in_xml (f : string) : Prop := exists stem, f = stem +:+ ".xml".

(** The member the extractor is to read: [game.xml] when the listing has
    it, otherwise the first name of the listing that ends in [.xml]. *)
Definition selected (zf : ZipFile) (member : string) : Prop :=
  (In "game.xml" (namelist zf) /\ member = "game.xml")
  \/ (~ In "game.xml" (namelist zf)
      /\ exists before after,
           namelist zf = before ++ member :: after
           /\ ends_in_xml member
           /\ forall g, In g before -> ~ ends_in_xml g).

(** The archives one search path contributes: nothing when it does not
    exist, itself when it is a [.zip] file, the glob below it when it is
    a directory. *)
Definition found_at (w : World) (search_path : string) : list string :=
  if negb (path_exists w search_path) then []
  else if is_file w search_path && bool_decide (Path.suffix search_path = ".zip")
  then [search_path]
  else if is_dir w search_path then rglob_zip w search_path
  else [].

(** Order of the sort keys. *)
Definition key_le (x y : Z * string) : Prop := (fst x <= fst y)%Z.

(** [p] was not modified after [q]. *)
Definition mtime_le (w : World) (p q : string) : Prop :=
  exists tp tq,
    path_mtime w p = Returns tp /\ path_mtime w q = Returns tq /\ (tp <= tq)%Z.

(** What the driver prints while it processes one save file. *)
Definition progress_report (w : World) (save_file : string) : list string :=
  stdout (process_save_file w [] save_file).


(** Whether the analysis of a save file succeeds. *)
Definition analyzable (w : World) (save_file : string) : bool :=
  match analysis_of w save_file with Some _ => true | None => false end.

(** Order of the archive time stamps kept in the analyses. *)
Definition analysis_mtime_le (a b : SaveFileAnalysis) : Prop :=
  exists ta tb, file_mtime a = Some ta /\ file_mtime b = Some tb /\ (ta <= tb)%Z.

(** The flags already cover every record seen so far. *)
Definition flags_cover (a : SaveFileAnalysis) : Prop :=
  forall p, In p (players a) ->
    (is_legacy p = true -> has_diadochi a = true /\ diadochi_as_nations a = true)
    /\ (is_modern p = true -> has_diadochi a = true /\ diadochi_as_dynasties a = true).

(** The match flag is the disjunction of the two form flags. *)
Definition flags_consistent (a : SaveFileAnalysis) : Prop :=
  has_diadochi a = diadochi_as_nations a || diadochi_as_dynasties a.

(** ** Worlds with faults *)

Module Faults.

(** A root without any [Player] element and without a [Version]. *)
Definition noplayers_root : Element :=
  mkElement "Root" (Samples.attrs [("GameId", "g3"); ("SaveDate", "2024-01-01")])
    [ mkElement "Game" ∅ [] ].

(** One archive that holds both encodings. *)
Definition both_root : Element :=
  mkElement "Root" ∅ [ Samples.seleucus_player; Samples.ptolemy_player ].

(** The same two players in the other order. *)
Definition both_root_swapped : Element :=
  mkElement "Root" ∅ [ Samples.ptolemy_player; Samples.seleucus_player ].

Definition modern_root : Element :=
  mkElement "Root" (Samples.attrs [("Version", EmptyString)]) [ Samples.ptolemy_player ].

Definition noplayers_text : string := "<Root><Game/></Root>".
Definition both_text : string := "<Root><Player n='1'/><Player n='2'/></Root>".
Definition swapped_text : string := "<Root><Player n='2'/><Player n='1'/></Root>".
Definition modern_text : string := "<Root Version=''><Player/></Root>".
Definition malformed_text : string := "<Root>".

Definition fault_fromstring (text : string) : outcome Element :=
  if bool_decide (text = noplayers_text) then Returns noplayers_root
  else if bool_decide (text = both_text) then Returns both_root
  else if bool_decide (text = swapped_text) then Returns both_root_swapped
  else if bool_decide (text = modern_text) then Returns modern_root
  else Raises "no element found: line 1, column 6".

(** An archive whose only document cannot be read. *)
Definition damaged_archive : ZipFile :=
  {| namelist := ["game.xml"];
     read := fun _ => Raises "Bad CRC-32 for file 'game.xml'" |}.

(** An archive whose document is not UTF-8. *)
Definition latin1_archive : ZipFile :=
  {| namelist := ["save.xml"];
     read := fun _ => Returns [xff; xfe] |}.

Definition regular (t : Z) : option stat_result :=
  Some {| st_type := RegularFile; st_mtime := t |}.

Definition directory (t : Z) : option stat_result :=
  Some {| st_type := Directory; st_mtime := t |}.

(** [links] holds a dangling link; [tie] holds two archives of equal
    time stamp after a later one; [notes.txt] is not an archive. *)
Definition fault_stat (p : string) : option stat_result :=
  if bool_decide (p = "unreadable.zip") then regular 1
  else if bool_decide (p = "damaged.zip") then regular 2
  else if bool_decide (p = "latin1.zip") then regular 3
  else if bool_decide (p = "malformed.zip") then regular 4
  else if bool_decide (p = "noplayers.zip") then regular 5
  else if bool_decide (p = "both.zip") then regular 6
  else if bool_decide (p = "swapped.zip") then regular 7
  else if bool_decide (p = "modern.zip") then regular 8
  else if bool_decide (p = "notes.txt") then regular 9
  else if bool_decide (p = "links") then directory 10
  else if bool_decide (p = "tie") then directory 11
  else if bool_decide (p = "tie/late.zip") then regular 20
  else if bool_decide (p = "tie/z.zip") then regular 15
  else if bool_decide (p = "tie/a.zip") then regular 15
  else None.

Definition fault_open (p : string) : outcome ZipFile :=
  if bool_decide (p = "damaged.zip") then Returns damaged_archive
  else if bool_decide (p = "latin1.zip") then Returns latin1_archive
  else if bool_decide (p = "malformed.zip")
  then Returns (Samples.archive [("game.xml", malformed_text)])
  else if bool_decide (p = "noplayers.zip")
  then Returns (Samples.archive [("game.xml", noplayers_text)])
  else if bool_decide (p = "both.zip")
  then Returns (Samples.archive [("game.xml", both_text)])
  else if bool_decide (p = "swapped.zip")
  then Returns (Samples.archive [("game.xml", swapped_text)])
  else if bool_decide (p = "modern.zip")
  then Returns (Samples.archive [("game.xml", modern_text)])
  else Raises "File is not a zip file".

Definition fault_world : World :=
  {| home := "/home/user";
     stat := fault_stat;
     rglob_zip := fun p =>
       if bool_decide (p = "links") then ["links/dangling.zip"]
       else if bool_decide (p = "tie") then ["tie/late.zip"; "tie/z.zip"; "tie/a.zip"]
       else [];
     zipfile_open := fault_open;
     decode_error := fun _ => "'utf-8' codec can't decode byte 0xff in position 0";
     fromstring := fault_fromstring;
     strftime_minutes := fun t => "1970-01-01 00:" +:+ Py.str_of_nat (Z.to_nat t) |}.

End Faults.

(** Whether a path was last modified at time [t]. *)
Definition modified_at (w : World) (t : Z) (p : string) : bool :=
  match stat w p with
  | Some st => (st_mtime st =? t)%Z
  | None => false
  end.


(** What the driver prints before discovery. *)
Definition preamble (search_paths : list string) : list string :=
  [ "Old World Save File Dynasty Format Analyzer" +:+ newline;
    Py.repeat_str "=" 80 +:+ newline;
    (newline +:+ "Searching in:") +:+ newline ]
  ++ map (fun p => ("  - " +:+ p) +:+ newline) search_paths.

(** * Properties *)

(** ** Output and exceptions *)

Lemma stdout_bind {A B} (m : IO A) (k : A -> IO B) :
  stdout (io_bind m k)
  = stdout m ++ match result m with
                | Returns a => stdout (k a)
                | Raises _ => []
                end.
Proof.
  destruct m as [out [a | e]]; simpl.
  - destruct (k a); reflexivity.
  - symmetry; apply app_nil_r.
Qed.

Lemma result_bind {A B} (m : IO A) (k : A -> IO B) :
  result (io_bind m k)
  = match result m with
    | Returns a => result (k a)
    | Raises e => Raises e
    end.
Proof.
  destruct m as [out [a | e]]; simpl; [destruct (k a) |]; reflexivity.
Qed.

Lemma io_eta {A} (m : IO A) : m = (stdout m, result m).
Proof. destruct m; reflexivity. Qed.

(** ** Element trees *)

Lemma Element_tree_ind (P : Element -> Prop) :
  (forall t a ch, Forall P ch -> P (mkElement t a ch)) ->
  forall e, P e.
Proof.
  intros step.
  fix IH 1.
  intros [t a ch]. apply step.
  induction ch as [| c ch IHch]; constructor; [apply IH | exact IHch].
Qed.

Lemma filter_flat_map {A B} (f : B -> bool) (g : A -> list B) (l : list A) :
  List.filter f (flat_map g l) = flat_map (fun x => List.filter f (g x)) l.
Proof.
  induction l as [| x l IH]; simpl; [reflexivity |].
  rewrite List.filter_app, IH. reflexivity.
Qed.

Lemma iter_is_filter (n : string) (e : Element) :
  ET.iter n e = List.filter (named n) (subtree e).
Proof.
  induction e as [t a ch IH] using Element_tree_ind.
  cbn [ET.iter subtree List.filter children tag named].
  unfold named at 1. cbn [tag].
  rewrite filter_flat_map.
  assert (flat_map (ET.iter n) ch
          = flat_map (fun x => List.filter (named n) (subtree x)) ch) as ->.
  { induction IH as [| c ch Hc _ IHch]; simpl; [reflexivity |].
    rewrite Hc, IHch. reflexivity. }
  destruct (bool_decide (t = n)); reflexivity.
Qed.

Lemma findall_descendants_filter (n : string) (e : Element) :
  ET.findall_descendants n e = List.filter (named n) (descendants e).
Proof.
  unfold ET.findall_descendants. rewrite iter_is_filter.
  destruct e as [t a ch]. unfold descendants.
  cbn [subtree List.filter tag children].
  change (named n (mkElement t a ch)) with (bool_decide (t = n)).
  destruct (bool_decide (t = n)); reflexivity.
Qed.

(** ** The classification loop *)

Lemma player_data_is_record (e : Element) : player_data_of e = record_of e.
Proof. reflexivity. Qed.

Lemma is_legacy_spec (p : PlayerData) : is_legacy p = true <-> legacy_form p.
Proof.
  unfold is_legacy, legacy_form, Py.in_set, DIADOCHI_NATIONS.
  destruct (nation p) as [n |].
  - rewrite bool_decide_eq_true, !elem_of_union, !elem_of_singleton.
    split.
    + intros [[-> | ->] | ->]; auto.
    + intros [[= ->] | [[= ->] | [= ->]]]; auto.
  - split; [discriminate | intros [H | [H | H]]; discriminate].
Qed.

Lemma is_modern_spec (p : PlayerData) : is_modern p = true <-> modern_form p.
Proof.
  unfold is_modern, modern_form, Py.eq_str, Py.in_tuple, DIADOCHI_DYNASTIES.
  rewrite andb_true_iff, bool_decide_eq_true.
  destruct (dynasty p) as [d |].
  - rewrite bool_decide_eq_true, !elem_of_cons, elem_of_nil.
    split.
    + intros [Hn [-> | [-> | [-> | []]]]]; auto.
    + intros [Hn [[= ->] | [[= ->] | [= ->]]]]; auto.
  - split; [intros [_ H]; discriminate | intros [_ [H | [H | H]]]; discriminate].
Qed.

Lemma forms_exclusive (p : PlayerData) : ~ (legacy_form p /\ modern_form p).
Proof.
  intros [[H | [H | H]] [G _]]; rewrite H in G; discriminate.
Qed.

Section Loop.

Variable w : World.

Lemma players_fold (elems : list Element) (a : SaveFileAnalysis) :
  players (fold_left analyze_player elems a)
  = players a ++ map record_of elems.
Proof.
  revert a; induction elems as [| e elems IH]; intros a; simpl.
  - symmetry; apply app_nil_r.
  - rewrite IH. cbn [analyze_player players]. rewrite <- app_assoc. reflexivity.
Qed.

Lemma flags_cover_step (a : SaveFileAnalysis) (e : Element) :
  flags_cover a -> flags_cover (analyze_player a e).
Proof.
  intros Ha p Hp. cbn [analyze_player players] in Hp.
  apply in_app_or in Hp.
  cbn [analyze_player has_diadochi diadochi_as_nations diadochi_as_dynasties].
  destruct Hp as [Hp | [<- | []]].
  - destruct (Ha p Hp) as [Hl Hm].
    destruct (is_legacy (player_data_of e)), (is_modern (player_data_of e));
      split; intros H; try (destruct (Hl H)); try (destruct (Hm H)); auto.
  - destruct (is_legacy (player_data_of e)), (is_modern (player_data_of e));
      split; intros H; try discriminate; auto.
Qed.

Lemma flags_cover_fold (elems : list Element) (a : SaveFileAnalysis) :
  flags_cover a -> flags_cover (fold_left analyze_player elems a).
Proof.
  revert a; induction elems as [| e elems IH]; intros a Ha; simpl; [exact Ha |].
  apply IH, flags_cover_step, Ha.
Qed.

Lemma flags_consistent_step (a : SaveFileAnalysis) (e : Element) :
  flags_consistent a -> flags_consistent (analyze_player a e).
Proof.
  unfold flags_consistent.
  cbn [analyze_player has_diadochi diadochi_as_nations diadochi_as_dynasties].
  intros ->.
  destruct (is_legacy (player_data_of e)), (is_modern (player_data_of e)),
    (diadochi_as_nations a), (diadochi_as_dynasties a); reflexivity.
Qed.

Lemma flags_consistent_fold (elems : list Element) (a : SaveFileAnalysis) :
  flags_consistent a -> flags_consistent (fold_left analyze_player elems a).
Proof.
  revert a; induction elems as [| e elems IH]; intros a Ha; simpl; [exact Ha |].
  apply IH, flags_consistent_step, Ha.
Qed.

(** A successful analysis is the analysis of the parsed root of a
    non-empty extracted text. *)
Lemma analyze_save_file_some (save_path : string) (a : SaveFileAnalysis) :
  result (analyze_save_file w save_path) = Returns (Some a) ->
  exists text root,
    result (extract_xml_from_save w save_path) = Returns (Some text)
    /\ text <> EmptyString
    /\ fromstring w text = Returns root
    /\ a = analyze_root (new_analysis w save_path) root.
Proof.
  unfold analyze_save_file. rewrite result_bind.
  destruct (result (extract_xml_from_save w save_path)) as [[text |] | e];
    cbn [Py.truthy negb]; try discriminate.
  destruct (bool_decide_reflect (text = EmptyString)) as [-> | Hne];
    cbn [negb]; [discriminate |].
  cbn [Py.format_opt].
  destruct (fromstring w text) as [root | e] eqn:Hparse.
  - cbn. intros [= <-]. exists text, root. auto.
  - rewrite result_bind. cbn. discriminate.
Qed.

Lemma analyze_save_file_parsed (save_path text : string) (root : Element) :
  result (extract_xml_from_save w save_path) = Returns (Some text) ->
  text <> EmptyString ->
  fromstring w text = Returns root ->
  result (analyze_save_file w save_path)
  = Returns (Some (analyze_root (new_analysis w save_path) root)).
Proof.
  intros Hx Hne Hparse. unfold analyze_save_file. rewrite result_bind, Hx.
  cbn [Py.truthy Py.format_opt].
  rewrite bool_decide_eq_false_2 by exact Hne. cbn [negb].
  rewrite Hparse. reflexivity.
Qed.

Lemma analyze_root_players (a0 : SaveFileAnalysis) (root : Element) :
  players a0 = [] ->
  players (analyze_root a0 root) = players_below_root root.
Proof.
  intros H0. unfold analyze_root, players_below_root.
  rewrite players_fold, findall_descendants_filter. cbn [set_metadata players].
  rewrite H0. reflexivity.
Qed.

End Loop.

(** ** Records and flags of one archive *)

(** C1: for every record of a successfully analysed archive, a legacy
    nation sets [has_diadochi] and [diadochi_as_nations], the Greek
    nation with a successor dynasty sets [has_diadochi] and
    [diadochi_as_dynasties], and no record is of both forms. *)
Theorem C1_forms_set_flags (w : World) (save_path : string) (a : SaveFileAnalysis) :
  result (analyze_save_file w save_path) = Returns (Some a) ->
  forall p, In p (players a) ->
    (legacy_form p -> has_diadochi a = true /\ diadochi_as_nations a = true)
    /\ (modern_form p -> has_diadochi a = true /\ diadochi_as_dynasties a = true)
    /\ ~ (legacy_form p /\ modern_form p).
Proof.
  intros Hrun p Hp.
  destruct (analyze_save_file_some w save_path a Hrun) as (text & root & _ & _ & _ & ->).
  assert (flags_cover (analyze_root (new_analysis w save_path) root)) as Hcover.
  { apply flags_cover_fold. intros q []. }
  destruct (Hcover p Hp) as [Hl Hm].
  split; [| split].
  - intros H. apply Hl, is_legacy_spec, H.
  - intros H. apply Hm, is_modern_spec, H.
  - apply forms_exclusive.
Qed.

Lemma C1_forms_set_flags_witness :
  result (analyze_save_file Samples.sample_world "saves/a.zip")
  = Returns (Some Samples.legacy_analysis)
  /\ In (record_of Samples.seleucus_player) (players Samples.legacy_analysis)
  /\ (legacy_form (record_of Samples.seleucus_player) ->
      has_diadochi Samples.legacy_analysis = true
      /\ diadochi_as_nations Samples.legacy_analysis = true).
Proof.
  assert (result (analyze_save_file Samples.sample_world "saves/a.zip")
          = Returns (Some Samples.legacy_analysis)) as Hrun
    by (vm_compute; reflexivity).
  assert (In (record_of Samples.seleucus_player) (players Samples.legacy_analysis)) as Hin
    by (vm_compute; left; reflexivity).
  split; [exact Hrun | split; [exact Hin |]].
  exact (proj1 (C1_forms_set_flags _ _ _ Hrun _ Hin)).
Defined.

(** C9: after a successful analysis the match flag is true exactly when
    one of the two form flags is. *)
Theorem C9_match_flag_is_disjunction
  (w : World) (save_path : string) (a : SaveFileAnalysis) :
  result (analyze_save_file w save_path) = Returns (Some a) ->
  has_diadochi a = diadochi_as_nations a || diadochi_as_dynasties a.
Proof.
  intros Hrun.
  destruct (analyze_save_file_some w save_path a Hrun) as (text & root & _ & _ & _ & ->).
  apply flags_consistent_fold. reflexivity.
Qed.

Lemma C9_match_flag_is_disjunction_witness :
  result (analyze_save_file Samples.sample_world "nested.zip")
  = Returns (Some Samples.nested_analysis)
  /\ has_diadochi Samples.nested_analysis
     = diadochi_as_nations Samples.nested_analysis
       || diadochi_as_dynasties Samples.nested_analysis.
Proof.
  assert (result (analyze_save_file Samples.sample_world "nested.zip")
          = Returns (Some Samples.nested_analysis)) as Hrun
    by (vm_compute; reflexivity).
  split; [exact Hrun |].
  exact (C9_match_flag_is_disjunction _ _ _ Hrun).
Defined.

(** ** Which elements are read *)

(** The claim C3 as worded fails on a document whose root element is
    itself named [Player]: [findall('.//Player')] starts below the root. *)
Lemma C3_root_player_not_recorded :
  ~ whole_tree_recorded Samples.sample_world "player.zip".
Proof.
  intros H.
  destruct (H Samples.player_text Samples.player_root) as (a & Hrun & Hplayers).
  - vm_compute; reflexivity.
  - discriminate.
  - reflexivity.
  - vm_compute in Hrun. injection Hrun as <-.
    vm_compute in Hplayers. discriminate.
Qed.

(** C3 (amended): every element named [Player] strictly below the root,
    at any depth, contributes exactly one record, in document order;
    each field of a record is the element's attribute, unset when the
    attribute is missing, and the analysis returns without raising. *)
Theorem C3_players_below_root_recorded
  (w : World) (save_path text : string) (root : Element) :
  result (extract_xml_from_save w save_path) = Returns (Some text) ->
  text <> EmptyString ->
  fromstring w text = Returns root ->
  exists a,
    result (analyze_save_file w save_path) = Returns (Some a)
    /\ players a
       = map (fun e => {| id := attrib e !! "ID";
                          name := attrib e !! "Name";
                          nation := attrib e !! "Nation";
                          dynasty := attrib e !! "Dynasty" |})
             (List.filter (fun e => bool_decide (tag e = "Player"))
                          (flat_map subtree (children root))).
Proof.
  intros Hx Hne Hparse.
  exists (analyze_root (new_analysis w save_path) root). split.
  - apply (analyze_save_file_parsed w save_path text root Hx Hne Hparse).
  - apply analyze_root_players. reflexivity.
Qed.

Lemma C3_players_below_root_recorded_witness :
  exists a,
    result (analyze_save_file Samples.sample_world "nested.zip") = Returns (Some a)
    /\ players a
       = map (fun e => {| id := attrib e !! "ID";
                          name := attrib e !! "Name";
                          nation := attrib e !! "Nation";
                          dynasty := attrib e !! "Dynasty" |})
             (List.filter (fun e => bool_decide (tag e = "Player"))
                          (flat_map subtree (children Samples.nested_root))).
Proof.
  apply (C3_players_below_root_recorded
           Samples.sample_world "nested.zip" Samples.nested_text Samples.nested_root).
  - vm_compute; reflexivity.
  - discriminate.
  - reflexivity.
Defined.

(** ** The rule table *)

Lemma seleucus_is_legacy :
  Py.in_set (Some "NATION_SELEUCUS") DIADOCHI_NATIONS = true.
Proof. vm_compute; reflexivity. Qed.

Lemma seleucus_expected :
  expected_mapping (Some "NATION_SELEUCUS")
  = io_ret ("NATION_GREECE", "DYNASTY_SELEUCID").
Proof. vm_compute; reflexivity. Qed.


(** C8: a document with exactly one [Player] element, of nation
    [NATION_SELEUCUS], yields exactly one matching record; the report
    labels it LEGACY and prints the pair found for it in the rule table,
    [(NATION_GREECE, DYNASTY_SELEUCID)]. *)
Theorem C8_single_seleucus_player
  (w : World) (save_path text : string) (root e : Element) :
  result (extract_xml_from_save w save_path) = Returns (Some text) ->
  text <> EmptyString ->
  fromstring w text = Returns root ->
  List.filter (named "Player") (descendants root) = [e] ->
  attrib e !! "Nation" = Some "NATION_SELEUCUS" ->
  exists a,
    result (analyze_save_file w save_path) = Returns (Some a)
    /\ diadochi_players a = [record_of e]
    /\ legacy_form (record_of e)
    /\ EXPECTED_MAPPINGS !! "NATION_SELEUCUS"
       = Some ("NATION_GREECE", "DYNASTY_SELEUCID")
    /\ exists player_line nation_line,
         print_player (record_of e)
         = ([ player_line; nation_line;
              "      → Format: LEGACY (separate nation)" +:+ newline;
              "      → Expected modern: Nation=NATION_GREECE, Dynasty=DYNASTY_SELEUCID"
              +:+ newline ],
            Returns tt).
Proof.
  intros Hx Hne Hparse Hone Hnation.
  assert (is_legacy (record_of e) = true) as Hlegacy.
  { unfold is_legacy. cbn [record_of nation]. rewrite Hnation.
    apply seleucus_is_legacy. }
  exists (analyze_root (new_analysis w save_path) root). split; [| split; [| split; [| split]]].
  - apply (analyze_save_file_parsed w save_path text root Hx Hne Hparse).
  - unfold diadochi_players.
    rewrite analyze_root_players by reflexivity.
    unfold players_below_root. rewrite Hone. cbn [map List.filter].
    rewrite Hlegacy. reflexivity.
  - apply is_legacy_spec, Hlegacy.
  - vm_compute; reflexivity.
  - unfold print_player. cbn [record_of nation name dynasty].
    rewrite Hnation, seleucus_is_legacy, seleucus_expected.
    eexists _, _. reflexivity.
Qed.

Lemma C8_single_seleucus_player_witness :
  exists a,
    result (analyze_save_file Samples.sample_world "saves/a.zip") = Returns (Some a)
    /\ diadochi_players a = [record_of Samples.seleucus_player]
    /\ legacy_form (record_of Samples.seleucus_player)
    /\ EXPECTED_MAPPINGS !! "NATION_SELEUCUS"
       = Some ("NATION_GREECE", "DYNASTY_SELEUCID")
    /\ exists player_line nation_line,
         print_player (record_of Samples.seleucus_player)
         = ([ player_line; nation_line;
              "      → Format: LEGACY (separate nation)" +:+ newline;
              "      → Expected modern: Nation=NATION_GREECE, Dynasty=DYNASTY_SELEUCID"
              +:+ newline ],
            Returns tt).
Proof.
  apply (C8_single_seleucus_player
           Samples.sample_world "saves/a.zip" Samples.legacy_text Samples.legacy_root).
  - vm_compute; reflexivity.
  - discriminate.
  - reflexivity.
  - vm_compute; reflexivity.
  - vm_compute; reflexivity.
Defined.

(** ** Strings *)

Lemma length_append (s t : string) :
  String.length (s +:+ t) = String.length s + String.length t.
Proof. induction s as [| c s IH]; simpl; [reflexivity | rewrite IH; reflexivity]. Qed.

Lemma substring_whole (s : string) : substring 0 (String.length s) s = s.
Proof. induction s as [| c s IH]; simpl; [reflexivity | rewrite IH; reflexivity]. Qed.

Lemma substring_after_prefix (pre suf : string) :
  substring (String.length pre) (String.length suf) (pre +:+ suf) = suf.
Proof. induction pre as [| c pre IH]; simpl; [apply substring_whole | exact IH]. Qed.

Lemma substring_split (s : string) (k : nat) :
  k <= String.length s ->
  s = substring 0 k s +:+ substring k (String.length s - k) s.
Proof.
  revert k; induction s as [| c s IH]; intros [| k] Hk; simpl in *.
  - reflexivity.
  - lia.
  - rewrite substring_whole. reflexivity.
  - change (String c (substring 0 k s) +:+ substring k (String.length s - k) s)
      with (String c (substring 0 k s +:+ substring k (String.length s - k) s)).
    f_equal. apply IH. lia.
Qed.

Lemma endswith_spec (s suffix : string) :
  Py.endswith s suffix = true <-> exists stem, s = stem +:+ suffix.
Proof.
  unfold Py.endswith. rewrite andb_true_iff, Nat.leb_le, bool_decide_eq_true.
  split.
  - intros [Hlen Hsub].
    exists (substring 0 (String.length s - String.length suffix) s).
    pose proof (substring_split s (String.length s - String.length suffix)) as Hsplit.
    replace (String.length s - (String.length s - String.length suffix))
      with (String.length suffix) in Hsplit by lia.
    rewrite Hsub in Hsplit. apply Hsplit. lia.
  - intros [stem ->]. rewrite length_append. split; [lia |].
    replace (String.length stem + String.length suffix - String.length suffix)
      with (String.length stem) by lia.
    apply substring_after_prefix.
Qed.

Lemma endswith_false (s suffix : string) :
  Py.endswith s suffix = false <-> ~ exists stem, s = stem +:+ suffix.
Proof.
  rewrite <- endswith_spec. destruct (Py.endswith s suffix); split; try easy.
Qed.

(** ** Extraction *)

Section Extraction.

Variable w : World.

(** The first member whose name ends in [.xml] heads [xml_files]. *)
Lemma xml_files_first (before after : list string) (member : string) :
  ends_in_xml member ->
  (forall g, In g before -> ~ ends_in_xml g) ->
  List.filter (fun f => Py.endswith f ".xml") (before ++ member :: after)
  = member :: List.filter (fun f => Py.endswith f ".xml") after.
Proof.
  intros Hm Hbefore. rewrite List.filter_app.
  assert (List.filter (fun f => Py.endswith f ".xml") before = []) as ->.
  { induction before as [| g before IH]; simpl; [reflexivity |].
    assert (Py.endswith g ".xml" = false) as ->
      by (apply endswith_false, Hbefore; left; reflexivity).
    apply IH. intros g' Hg'. apply Hbefore. right. exact Hg'. }
  simpl. apply endswith_spec in Hm. rewrite Hm. reflexivity.
Qed.

Lemma xml_files_none (names : list string) :
  (forall f, In f names -> ~ ends_in_xml f) ->
  List.filter (fun f => Py.endswith f ".xml") names = [].
Proof.
  intros H. induction names as [| g names IH]; simpl; [reflexivity |].
  assert (Py.endswith g ".xml" = false) as ->
    by (apply endswith_false, H; left; reflexivity).
  apply IH. intros f Hf. apply H. right. exact Hf.
Qed.

(** What the body of the [try] block does once a member is selected. *)
Lemma extract_selected (save_path : string) (zf : ZipFile) (member : string) :
  zipfile_open w save_path = Returns zf ->
  selected zf member ->
  extract_xml_from_save w save_path
  = io_catch
      (do text <- read_text w zf member ; io_ret (Some text))
      (fun e =>
         do print ("Error reading " +:+ Path.name save_path +:+ ": " +:+ e) ;
         io_ret None).
Proof.
  intros Hopen Hsel. unfold extract_xml_from_save. rewrite Hopen.
  cbn [io_lift io_bind app].
  destruct Hsel as [[Hin ->] | (Hnot & before & after & Hnames & Hxml & Hbefore)].
  - rewrite bool_decide_eq_true_2 by (apply list_elem_of_In, Hin).
    destruct (read_text w zf "game.xml") as [out [text | e]]; reflexivity.
  - rewrite bool_decide_eq_false_2 by (rewrite list_elem_of_In; exact Hnot).
    rewrite Hnames, (xml_files_first before after member Hxml Hbefore).
    destruct (read_text w zf member) as [out [text | e]]; reflexivity.
Qed.

Lemma extract_decoded (save_path : string) (zf : ZipFile) (member : string)
      (data : list byte) :
  zipfile_open w save_path = Returns zf ->
  selected zf member ->
  read zf member = Returns data ->
  Py.utf8_valid data = true ->
  extract_xml_from_save w save_path = ([], Returns (Some (string_of_list_byte data))).
Proof.
  intros Hopen Hsel Hread Hvalid.
  rewrite (extract_selected save_path zf member Hopen Hsel).
  unfold read_text. rewrite Hread. cbn [io_lift io_bind].
  unfold decode, Py.decode_utf8. rewrite Hvalid. reflexivity.
Qed.

Lemma extract_no_document (save_path : string) (zf : ZipFile) :
  zipfile_open w save_path = Returns zf ->
  (forall f, In f (namelist zf) -> ~ ends_in_xml f) ->
  extract_xml_from_save w save_path
  = ([ "Warning: No .xml file found in " +:+ Path.name save_path +:+ newline ],
     Returns None).
Proof.
  intros Hopen Hnone. unfold extract_xml_from_save. rewrite Hopen.
  cbn [io_lift io_bind app].
  rewrite bool_decide_eq_false_2.
  - rewrite (xml_files_none _ Hnone). reflexivity.
  - rewrite list_elem_of_In. intros Hin. apply (Hnone _ Hin).
    exists "game". reflexivity.
Qed.

(** The extractor catches whatever is raised inside it. *)
Lemma extract_never_raises (save_path : string) :
  exists o, result (extract_xml_from_save w save_path) = Returns o.
Proof.
  unfold extract_xml_from_save.
  destruct (io_bind _ _) as [out [o | e]]; cbn; eauto.
Qed.

Lemma analyze_never_raises (save_path : string) :
  exists o, result (analyze_save_file w save_path) = Returns o.
Proof.
  unfold analyze_save_file. rewrite result_bind.
  destruct (extract_never_raises save_path) as [o ->].
  destruct (negb (Py.truthy o)); [eexists; reflexivity |].
  destruct (fromstring w (Py.format_opt o)); cbn; eauto.
Qed.

End Extraction.

(** C5: the extractor returns the UTF-8 decoded text of [game.xml] when
    the archive lists it; otherwise that of the first listed member
    whose name ends in [.xml]; with no such member it prints a warning
    and returns no document. *)
Theorem C5_document_selection (w : World) (save_path : string) (zf : ZipFile) :
  zipfile_open w save_path = Returns zf ->
  (In "game.xml" (namelist zf) ->
   forall data text,
     read zf "game.xml" = Returns data ->
     Py.decode_utf8 data = Some text ->
     extract_xml_from_save w save_path = ([], Returns (Some text)))
  /\ (~ In "game.xml" (namelist zf) ->
      forall before member after data text,
        namelist zf = before ++ member :: after ->
        ends_in_xml member ->
        (forall g, In g before -> ~ ends_in_xml g) ->
        read zf member = Returns data ->
        Py.decode_utf8 data = Some text ->
        extract_xml_from_save w save_path = ([], Returns (Some text)))
  /\ ((forall f, In f (namelist zf) -> ~ ends_in_xml f) ->
      extract_xml_from_save w save_path
      = ([ "Warning: No .xml file found in " +:+ Path.name save_path +:+ newline ],
         Returns None)).
Proof.
  intros Hopen. split; [| split].
  - intros Hgame data text Hread Hdecode.
    unfold Py.decode_utf8 in Hdecode.
    destruct (Py.utf8_valid data) eqn:Hvalid; [| discriminate].
    injection Hdecode as <-.
    apply (extract_decoded w save_path zf "game.xml" data Hopen); auto.
    left. auto.
  - intros Hnot before member after data text Hnames Hxml Hbefore Hread Hdecode.
    unfold Py.decode_utf8 in Hdecode.
    destruct (Py.utf8_valid data) eqn:Hvalid; [| discriminate].
    injection Hdecode as <-.
    apply (extract_decoded w save_path zf member data Hopen); auto.
    right. split; [exact Hnot |]. exists before, after. auto.
  - apply extract_no_document, Hopen.
Qed.

Lemma C5_document_selection_witness :
  extract_xml_from_save Samples.sample_world "saves/a.zip"
  = ([], Returns (Some Samples.legacy_text))
  /\ extract_xml_from_save Samples.sample_world "saves/b.zip"
     = ([], Returns (Some Samples.plain_text)).
Proof.
  split.
  - assert (zipfile_open Samples.sample_world "saves/a.zip"
            = Returns (Samples.archive [("notes.xml", Samples.nested_text);
                                        ("game.xml", Samples.legacy_text)])) as Hopen
      by reflexivity.
    apply (proj1 (C5_document_selection _ _ _ Hopen)) with
      (data := list_byte_of_string Samples.legacy_text).
    + right; left; reflexivity.
    + vm_compute; reflexivity.
    + vm_compute; reflexivity.
  - assert (zipfile_open Samples.sample_world "saves/b.zip"
            = Returns (Samples.archive [("readme.txt", "hello");
                                        ("save.xml", Samples.plain_text);
                                        ("other.xml", Samples.legacy_text)])) as Hopen
      by reflexivity.
    apply (proj1 (proj2 (C5_document_selection _ _ _ Hopen))) with
      (before := ["readme.txt"]) (member := "save.xml") (after := ["other.xml"])
      (data := list_byte_of_string Samples.plain_text).
    + intros [H | [H | [H | []]]]; discriminate.
    + reflexivity.
    + exists "save"; reflexivity.
    + intros g [<- | []] H. apply endswith_spec in H. vm_compute in H. discriminate.
    + vm_compute; reflexivity.
    + vm_compute; reflexivity.
Defined.

(** ** Skipped archives *)

Lemma process_save_file_unfold (w : World) (analyses : list SaveFileAnalysis)
      (save_file : string) :
  process_save_file w analyses save_file
  = ( [ ("Analyzing: " +:+ Path.name save_file +:+ "...") +:+ " " ]
      ++ stdout (analyze_save_file w save_file)
      ++ match analysis_of w save_file with
         | Some a =>
           [ ((if has_diadochi a then "✓" else "-") +:+ " ("
              +:+ Py.str_of_nat (length (players a)) +:+ " players)") +:+ newline ]
         | None => [ "✗ (failed)" +:+ newline ]
         end,
      Returns (analyses ++ match analysis_of w save_file with
                           | Some a => [a]
                           | None => []
                           end) ).
Proof.
  unfold process_save_file, analysis_of.
  destruct (analyze_never_raises w save_file) as [o Ho].
  rewrite (io_eta (analyze_save_file w save_file)), Ho.
  destruct o as [a |]; cbn; rewrite ?app_nil_r; reflexivity.
Qed.

(** An empty member is extracted and decoded to the empty string. *)
Lemma extract_empty_document (w : World) (save_path : string) (zf : ZipFile)
      (member : string) :
  zipfile_open w save_path = Returns zf ->
  selected zf member ->
  read zf member = Returns [] ->
  extract_xml_from_save w save_path = ([], Returns (Some EmptyString)).
Proof.
  intros Hopen Hsel Hread.
  apply (extract_decoded w save_path zf member [] Hopen Hsel Hread). reflexivity.
Qed.

(** C10: when the extracted text is the empty string, although the
    extraction and the decoding succeeded, [analyze_save_file] returns
    no analysis and prints nothing more, and the driver reports the
    archive as failed and leaves it out of the analyses. *)
Theorem C10_empty_document_is_failure (w : World) (save_path : string) :
  result (extract_xml_from_save w save_path) = Returns (Some EmptyString) ->
  result (analyze_save_file w save_path) = Returns None
  /\ stdout (analyze_save_file w save_path) = stdout (extract_xml_from_save w save_path)
  /\ forall analyses,
       process_save_file w analyses save_path
       = ( [ ("Analyzing: " +:+ Path.name save_path +:+ "...") +:+ " " ]
           ++ stdout (extract_xml_from_save w save_path)
           ++ [ "✗ (failed)" +:+ newline ],
           Returns analyses ).
Proof.
  intros Hempty.
  assert (analyze_save_file w save_path
          = (stdout (extract_xml_from_save w save_path), Returns None)) as Hrun.
  { unfold analyze_save_file.
    rewrite (io_eta (extract_xml_from_save w save_path)), Hempty.
    cbn [io_bind Py.truthy]. rewrite bool_decide_eq_true_2 by reflexivity.
    cbn. rewrite app_nil_r. reflexivity. }
  split; [| split].
  - rewrite Hrun. reflexivity.
  - rewrite Hrun. reflexivity.
  - intros analyses. rewrite process_save_file_unfold.
    unfold analysis_of. rewrite Hrun. cbn [stdout result fst snd].
    rewrite ?app_nil_r. reflexivity.
Qed.

Lemma C10_empty_document_is_failure_witness :
  zipfile_open Samples.sample_world "empty.zip"
  = Returns (Samples.archive [("game.xml", EmptyString)])
  /\ result (extract_xml_from_save Samples.sample_world "empty.zip")
     = Returns (Some EmptyString)
  /\ result (analyze_save_file Samples.sample_world "empty.zip") = Returns None.
Proof.
  assert (zipfile_open Samples.sample_world "empty.zip"
          = Returns (Samples.archive [("game.xml", EmptyString)])) as Hopen
    by reflexivity.
  assert (result (extract_xml_from_save Samples.sample_world "empty.zip")
          = Returns (Some EmptyString)) as Hempty.
  { rewrite (extract_empty_document _ _ _ "game.xml" Hopen); [reflexivity | |].
    - left. split; [left |]; reflexivity.
    - reflexivity. }
  split; [exact Hopen | split; [exact Hempty |]].
  exact (proj1 (C10_empty_document_is_failure _ _ Hempty)).
Defined.

(** ** Discovery *)

Section DiscoveryFacts.

Variable w : World.

Lemma visit_search_path_unfold (save_files : list string) (search_path : string) :
  visit_search_path w save_files search_path
  = ( if path_exists w search_path then []
      else [ ("Path does not exist: " +:+ search_path) +:+ newline ],
      Returns (save_files ++ found_at w search_path) ).
Proof.
  unfold visit_search_path, found_at.
  destruct (path_exists w search_path); cbn [negb].
  - destruct (is_file w search_path && bool_decide (Path.suffix search_path = ".zip"));
      [reflexivity |].
    destruct (is_dir w search_path); [reflexivity |].
    rewrite app_nil_r. reflexivity.
  - rewrite app_nil_r. reflexivity.
Qed.

Lemma visit_loop (search_paths save_files : list string) :
  io_fold (visit_search_path w) search_paths save_files
  = ( flat_map (fun p => if path_exists w p then []
                         else [ ("Path does not exist: " +:+ p) +:+ newline ])
               search_paths,
      Returns (save_files ++ flat_map (found_at w) search_paths) ).
Proof.
  revert save_files; induction search_paths as [| p rest IH]; intros save_files.
  - cbn. rewrite app_nil_r. reflexivity.
  - cbn [io_fold]. rewrite visit_search_path_unfold. cbn [io_bind].
    rewrite IH. cbn [flat_map]. rewrite <- app_assoc. reflexivity.
Qed.

(** The keys are the modification times, one per path, in order. *)
Lemma decorate_returns (paths : list string) (keyed : list (Z * string)) :
  decorate w paths = Returns keyed ->
  map snd keyed = paths
  /\ Forall (fun x => path_mtime w (snd x) = Returns (fst x)) keyed.
Proof.
  revert keyed; induction paths as [| p rest IH]; intros keyed; cbn [decorate].
  - intros [= <-]. split; constructor.
  - destruct (path_mtime w p) as [t | e] eqn:Ht; [| discriminate].
    destruct (decorate w rest) as [keyed' | e]; [| discriminate].
    intros [= <-]. destruct (IH keyed' eq_refl) as [Hmap Hall].
    split; [cbn; rewrite Hmap; reflexivity | constructor; [exact Ht | exact Hall]].
Qed.

Lemma insert_keyed_perm (x : Z * string) (l : list (Z * string)) :
  Permutation (insert_keyed x l) (x :: l).
Proof.
  induction l as [| y l IH]; cbn [insert_keyed]; [reflexivity |].
  destruct (fst x <=? fst y)%Z; [reflexivity |].
  rewrite IH. apply perm_swap.
Qed.

Lemma sort_keyed_perm (l : list (Z * string)) : Permutation (sort_keyed l) l.
Proof.
  induction l as [| x l IH]; cbn; [reflexivity |].
  rewrite insert_keyed_perm. constructor. exact IH.
Qed.

Lemma insert_keyed_sorted (x : Z * string) (l : list (Z * string)) :
  StronglySorted key_le l -> StronglySorted key_le (insert_keyed x l).
Proof.
  induction 1 as [| y l Hl IH Hy]; cbn [insert_keyed].
  - repeat constructor.
  - destruct (Z.leb_spec (fst x) (fst y)) as [Hxy | Hyx].
    + constructor; [constructor; assumption |].
      constructor; [exact Hxy |].
      eapply List.Forall_impl; [| exact Hy]. unfold key_le. intros z Hz. cbn beta in *. lia.
    + constructor; [exact IH |].
      rewrite insert_keyed_perm. constructor; [unfold key_le; lia | exact Hy].
Qed.

Lemma sort_keyed_sorted (l : list (Z * string)) : StronglySorted key_le (sort_keyed l).
Proof.
  induction l as [| x l IH]; cbn; [constructor | apply insert_keyed_sorted, IH].
Qed.

(** The sort is stable: items of equal key keep their order. *)
Lemma insert_keyed_stable (k : Z) (x : Z * string) (l : list (Z * string)) :
  List.filter (fun y => (fst y =? k)%Z) (insert_keyed x l)
  = List.filter (fun y => (fst y =? k)%Z) (x :: l).
Proof.
  induction l as [| y l IH]; cbn [insert_keyed]; [reflexivity |].
  destruct (Z.leb_spec (fst x) (fst y)) as [Hxy | Hyx]; [reflexivity |].
  cbn [List.filter] in *. rewrite IH.
  destruct (Z.eqb_spec (fst x) k), (Z.eqb_spec (fst y) k); try reflexivity. lia.
Qed.

Lemma sort_keyed_stable (k : Z) (l : list (Z * string)) :
  List.filter (fun y => (fst y =? k)%Z) (sort_keyed l)
  = List.filter (fun y => (fst y =? k)%Z) l.
Proof.
  induction l as [| x l IH]; [reflexivity |].
  cbn [sort_keyed fold_right]. rewrite insert_keyed_stable.
  cbn [List.filter]. fold (sort_keyed l). rewrite IH. reflexivity.
Qed.

Lemma keyed_sorted_by_mtime (keyed : list (Z * string)) :
  Forall (fun x => path_mtime w (snd x) = Returns (fst x)) keyed ->
  StronglySorted key_le keyed ->
  StronglySorted (mtime_le w) (map snd keyed).
Proof.
  intros Hkeys Hsorted.
  induction Hsorted as [| x l Hl IH Hx]; cbn [map]; [constructor |].
  inversion Hkeys as [| ? ? Hkx Hkl]; subst.
  constructor; [apply IH, Hkl |].
  rewrite Forall_map, Forall_forall in *. intros y Hy.
  exists (fst x), (fst y). split; [exact Hkx | split; [apply Hkl, Hy | apply Hx, Hy]].
Qed.

Lemma sorted_by_mtime_returns (save_files files : list string) :
  sorted_by_mtime w save_files = Returns files ->
  StronglySorted (mtime_le w) files
  /\ Permutation files save_files
  /\ Forall (fun p => stat w p <> None) files.
Proof.
  unfold sorted_by_mtime.
  destruct (decorate w save_files) as [keyed | e] eqn:Hkeyed; [| discriminate].
  intros [= <-]. destruct (decorate_returns _ _ Hkeyed) as [Hmap Hkeys].
  assert (Forall (fun x => path_mtime w (snd x) = Returns (fst x)) (sort_keyed keyed))
    as Hkeys'.
  { rewrite Forall_forall in *. intros x Hx. apply Hkeys.
    rewrite <- (sort_keyed_perm keyed). exact Hx. }
  split; [| split].
  - apply keyed_sorted_by_mtime; [exact Hkeys' | apply sort_keyed_sorted].
  - rewrite <- Hmap. apply Permutation_map, sort_keyed_perm.
  - rewrite Forall_map. eapply List.Forall_impl; [| exact Hkeys'].
    intros x Hx. cbn beta in Hx. unfold path_mtime in Hx.
    destruct (stat w (snd x)); [discriminate | discriminate].
Qed.

Lemma find_save_files_unfold (search_paths : list string) :
  find_save_files w search_paths
  = ( flat_map (fun p => if path_exists w p then []
                         else [ ("Path does not exist: " +:+ p) +:+ newline ])
               search_paths,
      sorted_by_mtime w (flat_map (found_at w) search_paths) ).
Proof.
  unfold find_save_files. rewrite visit_loop. cbn. rewrite app_nil_r. reflexivity.
Qed.

Lemma find_save_files_unfold_result (search_paths : list string) :
  result (find_save_files w search_paths)
  = sorted_by_mtime w (flat_map (found_at w) search_paths).
Proof. rewrite find_save_files_unfold. reflexivity. Qed.

(** ** The loop over the save files *)

Lemma analysis_filepath (save_path : string) (a : SaveFileAnalysis) :
  analysis_of w save_path = Some a ->
  filepath a = save_path /\ file_mtime a = file_mtime (new_analysis w save_path).
Proof.
  unfold analysis_of.
  destruct (result (analyze_save_file w save_path)) as [o | e] eqn:Hrun; [| discriminate].
  intros ->. destruct (analyze_save_file_some w _ _ Hrun) as (text & root & _ & _ & _ & ->).
  unfold analyze_root.
  generalize (ET.findall_descendants "Player" root) as elems.
  assert (forall elems a0,
            filepath (fold_left analyze_player elems a0) = filepath a0
            /\ file_mtime (fold_left analyze_player elems a0) = file_mtime a0) as Hfold.
  { induction elems as [| e elems IH]; intros a0; cbn [fold_left]; [auto |].
    destruct (IH (analyze_player a0 e)) as [-> ->]. auto. }
  intros elems. destruct (Hfold elems (set_metadata (new_analysis w save_path) root))
    as [-> ->]. auto.
Qed.

Lemma process_loop (save_files : list string) (analyses : list SaveFileAnalysis) :
  io_fold (process_save_file w) save_files analyses
  = ( flat_map (progress_report w) save_files,
      Returns (analyses ++ omap (analysis_of w) save_files) ).
Proof.
  revert analyses; induction save_files as [| f rest IH]; intros analyses.
  - cbn. rewrite app_nil_r. reflexivity.
  - cbn [io_fold]. rewrite process_save_file_unfold. cbn [io_bind].
    rewrite IH. cbn [flat_map omap list_omap]. unfold progress_report at 2.
    rewrite (process_save_file_unfold w [] f). cbn [stdout fst].
    destruct (analysis_of w f) as [a |]; cbn [app];
      rewrite <- ?app_assoc, ?app_nil_r; reflexivity.
Qed.

End DiscoveryFacts.

Lemma omap_sorted {A B} (R : A -> A -> Prop) (R' : B -> B -> Prop)
      (f : A -> option B) (l : list A) :
  (forall x y a b, R x y -> f x = Some a -> f y = Some b -> R' a b) ->
  StronglySorted R l -> StronglySorted R' (omap f l).
Proof.
  intros Hmono. induction 1 as [| x l Hl IH Hx]; cbn [omap list_omap]; [constructor |].
  destruct (f x) as [a |] eqn:Hfx; [| exact IH].
  constructor; [exact IH |].
  rewrite Forall_forall in Hx. apply Forall_forall. intros b Hb.
  apply list_elem_of_omap in Hb as (y & Hy & Hfy).
  exact (Hmono x y a b (Hx y Hy) Hfx Hfy).
Qed.

Lemma omap_filepaths (w : World) (files : list string) :
  map filepath (omap (analysis_of w) files) = List.filter (analyzable w) files.
Proof.
  induction files as [| f files IH]; cbn [omap list_omap List.filter]; [reflexivity |].
  unfold analyzable at 1.
  destruct (analysis_of w f) as [a |] eqn:Ha; [| exact IH].
  cbn [map]. rewrite IH. destruct (analysis_filepath w f a Ha) as [-> _]. reflexivity.
Qed.

(** C7: the files discovery returns are in ascending order of
    modification time, and they are the archives found at the search
    paths; the driver reports on them in that order, and the analyses it
    hands to the summary follow the same order. *)
Theorem C7_files_sorted_by_mtime (w : World) (search_paths files : list string) :
  result (find_save_files w search_paths) = Returns files ->
  StronglySorted (mtime_le w) files
  /\ Permutation files (flat_map (found_at w) search_paths)
  /\ stdout (io_fold (process_save_file w) files [])
     = flat_map (progress_report w) files
  /\ exists analyses,
       result (io_fold (process_save_file w) files []) = Returns analyses
       /\ map filepath analyses = List.filter (analyzable w) files
       /\ StronglySorted analysis_mtime_le analyses.
Proof.
  rewrite find_save_files_unfold. cbn [result snd]. intros Hsorted.
  destruct (sorted_by_mtime_returns w _ _ Hsorted) as (Hord & Hperm & Hstat).
  split; [exact Hord | split; [exact Hperm |]].
  rewrite process_loop. cbn [stdout result fst snd app].
  split; [reflexivity |].
  exists (omap (analysis_of w) files).
  split; [reflexivity | split; [apply omap_filepaths |]].
  apply (omap_sorted (mtime_le w)); [| exact Hord].
  intros p q a b (tp & tq & Hp & Hq & Hle) Ha Hb.
  destruct (analysis_filepath w p a Ha) as [_ Hma].
  destruct (analysis_filepath w q b Hb) as [_ Hmb].
  exists tp, tq. rewrite Hma, Hmb. cbn [new_analysis file_mtime].
  unfold path_exists, path_mtime in *.
  destruct (stat w p); [| discriminate]. destruct (stat w q); [| discriminate].
  injection Hp as ->. injection Hq as ->. auto.
Qed.

Lemma C7_files_sorted_by_mtime_witness :
  result (find_save_files Samples.sample_world ["saves"])
  = Returns ["saves/b.zip"; "saves/c.zip"; "saves/a.zip"]
  /\ StronglySorted (mtime_le Samples.sample_world)
                    ["saves/b.zip"; "saves/c.zip"; "saves/a.zip"].
Proof.
  assert (result (find_save_files Samples.sample_world ["saves"])
          = Returns ["saves/b.zip"; "saves/c.zip"; "saves/a.zip"]) as Hfound
    by (vm_compute; reflexivity).
  split; [exact Hfound |].
  exact (proj1 (C7_files_sorted_by_mtime _ _ _ Hfound)).
Defined.

(** ** Explicit paths *)




(** ** The summary *)

Lemma nonempty_filter {A} (f : A -> bool) (l : list A) :
  nonempty (List.filter f l) = true <-> exists a, In a l /\ f a = true.
Proof.
  split.
  - destruct (List.filter f l) as [| a rest] eqn:Hf; [discriminate |]. intros _.
    assert (In a (List.filter f l)) as Hin by (rewrite Hf; left; reflexivity).
    apply List.filter_In in Hin. eauto.
  - intros (a & Hin & Hfa).
    assert (In a (List.filter f l)) as Hin' by (apply List.filter_In; auto).
    destruct (List.filter f l); [destruct Hin' | reflexivity].
Qed.

Lemma print_counts_returns (analyses : list SaveFileAnalysis) :
  result (print_counts analyses) = Returns tt.
Proof. reflexivity. Qed.

Lemma print_format_verdict_returns (as_nations as_dynasties : list SaveFileAnalysis) :
  result (print_format_verdict as_nations as_dynasties) = Returns tt.
Proof.
  unfold print_format_verdict.
  destruct (nonempty as_nations), (nonempty as_dynasties); reflexivity.
Qed.

Lemma summary_stdout (w : World) (analyses : list SaveFileAnalysis) :
  stdout (print_analysis_summary w analyses)
  = stdout (print_counts analyses)
    ++ stdout (print_format_verdict (List.filter diadochi_as_nations analyses)
                                    (List.filter diadochi_as_dynasties analyses))
    ++ stdout (print_breakdown w analyses).
Proof.
  unfold print_analysis_summary.
  rewrite stdout_bind, print_counts_returns, stdout_bind, print_format_verdict_returns.
  reflexivity.
Qed.


(** C2: between the counts and the detailed breakdown the summary prints
    the both-formats warning exactly when some archive of the batch has
    the legacy flag and some archive (possibly the same) has the modern
    flag; with only one form it prints the confirmation of that form,
    and with neither it prints nothing there. *)
Theorem C2_both_formats_warning (w : World) (analyses : list SaveFileAnalysis) :
  let legacy := exists a, In a analyses /\ diadochi_as_nations a = true in
  let modern := exists a, In a analyses /\ diadochi_as_dynasties a = true in
  exists verdict,
    stdout (print_analysis_summary w analyses)
    = stdout (print_counts analyses) ++ verdict ++ stdout (print_breakdown w analyses)
    /\ (verdict
        = [ (newline +:+ "⚠️  WARNING: BOTH FORMATS DETECTED!") +:+ newline;
            "   This confirms the format changed between game versions." +:+ newline ]
        <-> legacy /\ modern)
    /\ (legacy -> ~ modern ->
        verdict
        = [ (newline +:+ "✓  All Diadochi encoded as separate nations (legacy format)")
            +:+ newline ])
    /\ (~ legacy -> modern ->
        verdict
        = [ (newline +:+ "✓  All Diadochi encoded as dynasties (modern format)")
            +:+ newline ])
    /\ (~ legacy -> ~ modern -> verdict = []).
Proof.
  intros legacy modern.
  exists (stdout (print_format_verdict (List.filter diadochi_as_nations analyses)
                                       (List.filter diadochi_as_dynasties analyses))).
  split; [apply summary_stdout |].
  pose proof (nonempty_filter diadochi_as_nations analyses) as Hl.
  pose proof (nonempty_filter diadochi_as_dynasties analyses) as Hm.
  fold legacy in Hl. fold modern in Hm.
  unfold print_format_verdict.
  destruct (nonempty (List.filter diadochi_as_nations analyses));
    destruct (nonempty (List.filter diadochi_as_dynasties analyses));
    cbn [andb]; (split; [split |]).
  - intros _. split; [apply Hl | apply Hm]; reflexivity.
  - reflexivity.
  - repeat split; intros H1 H2; exfalso;
      first [apply H1, Hl; reflexivity | apply H2, Hm; reflexivity
            | apply H1, Hm; reflexivity | apply H2, Hl; reflexivity].
  - cbn. discriminate.
  - intros [_ H]. apply Hm in H. discriminate.
  - repeat split; intros H1 H2; try reflexivity; exfalso;
      first [apply H1, Hl; reflexivity | apply Hm in H2; discriminate].
  - cbn. discriminate.
  - intros [H _]. apply Hl in H. discriminate.
  - repeat split; intros H1 H2; try reflexivity; exfalso;
      first [apply Hl in H1; discriminate | apply H2, Hm; reflexivity].
  - cbn. discriminate.
  - intros [H _]. apply Hl in H. discriminate.
  - repeat split; intros H1 H2; try reflexivity; exfalso;
      first [apply Hl in H1; discriminate | apply Hm in H2; discriminate].
Qed.

(** ** The driver *)


Lemma for_each_print (xs : list string) (text : string -> string) :
  for_each xs (fun x => print (text x))
  = (map (fun x => text x +:+ newline) xs, Returns tt).
Proof.
  induction xs as [| x xs IH]; cbn [for_each map]; [reflexivity |].
  rewrite IH. reflexivity.
Qed.







(** The run once discovery has returned. *)
Lemma main_after_discovery (w : World) (prog : string) (args : list string)
      (files : list string) :
  resolve_search_paths w prog args <> [] ->
  result (find_save_files w (resolve_search_paths w prog args)) = Returns files ->
  main w prog args
  = ( [ "Old World Save File Dynasty Format Analyzer" +:+ newline;
        Py.repeat_str "=" 80 +:+ newline;
        (newline +:+ "Searching in:") +:+ newline ]
      ++ map (fun p => ("  - " +:+ p) +:+ newline) (resolve_search_paths w prog args)
      ++ stdout (find_save_files w (resolve_search_paths w prog args))
      ++ match files with
         | [] => [ (newline +:+ "No save files found!") +:+ newline ]
         | _ :: _ =>
           [ (newline +:+ "Found " +:+ Py.str_of_nat (length files) +:+ " save file(s)")
             +:+ newline;
             ("Analyzing..." +:+ newline) +:+ newline ]
           ++ flat_map (progress_report w) files
           ++ stdout (print_analysis_summary w (omap (analysis_of w) files))
         end,
      match files with
      | [] => Returns 1%Z
      | _ :: _ =>
        match result (print_analysis_summary w (omap (analysis_of w) files)) with
        | Returns _ => Returns 0%Z
        | Raises e => Raises e
        end
      end ).
Proof.
  intros Hsome Hfound. unfold main.
  destruct (resolve_search_paths w prog args) as [| p paths] eqn:Hpaths;
    [contradiction |].
  cbn [nonempty negb]. rewrite for_each_print.
  destruct (find_save_files w (p :: paths)) as [found r].
  cbn [result snd] in Hfound. subst r. cbn [stdout fst].
  destruct files as [| f files].
  - cbn. rewrite <- ?app_assoc. reflexivity.
  - cbn [io_bind print nonempty negb]. rewrite process_loop.
    cbn [io_bind app].
    destruct (print_analysis_summary w (omap (analysis_of w) (f :: files)))
      as [summary [[] | e]];
      cbn [io_bind io_ret app stdout result fst snd];
      rewrite <- ?app_assoc, ?app_nil_r; reflexivity.
Qed.




(** * Further properties of the script *)

(** ** Failures inside the extractor *)

Lemma extract_open_fails (w : World) (save_path e : string) :
  zipfile_open w save_path = Raises e ->
  extract_xml_from_save w save_path
  = ([ ("Error reading " +:+ Path.name save_path +:+ ": " +:+ e) +:+ newline ],
     Returns None).
Proof.
  intros Hopen. unfold extract_xml_from_save. rewrite Hopen. reflexivity.
Qed.

Lemma extract_read_fails (w : World) (save_path : string) (zf : ZipFile)
      (member e : string) :
  zipfile_open w save_path = Returns zf ->
  selected zf member ->
  read zf member = Raises e ->
  extract_xml_from_save w save_path
  = ([ ("Error reading " +:+ Path.name save_path +:+ ": " +:+ e) +:+ newline ],
     Returns None).
Proof.
  intros Hopen Hsel Hread. rewrite (extract_selected w save_path zf member Hopen Hsel).
  unfold read_text. rewrite Hread. reflexivity.
Qed.

Lemma extract_decode_fails (w : World) (save_path : string) (zf : ZipFile)
      (member : string) (data : list byte) :
  zipfile_open w save_path = Returns zf ->
  selected zf member ->
  read zf member = Returns data ->
  Py.decode_utf8 data = None ->
  extract_xml_from_save w save_path
  = ([ ("Error reading " +:+ Path.name save_path +:+ ": " +:+ decode_error w data)
       +:+ newline ],
     Returns None).
Proof.
  intros Hopen Hsel Hread Hdecode.
  rewrite (extract_selected w save_path zf member Hopen Hsel).
  unfold read_text. rewrite Hread. cbn [io_lift io_bind].
  unfold decode. rewrite Hdecode. reflexivity.
Qed.

(** The extractor either hands back a text without printing, or prints
    one line and hands back nothing. *)
Lemma extract_cases (w : World) (save_path : string) :
  (exists text, extract_xml_from_save w save_path = ([], Returns (Some text)))
  \/ (exists line, extract_xml_from_save w save_path = ([line], Returns None)).
Proof.
  unfold extract_xml_from_save.
  destruct (zipfile_open w save_path) as [zf | e]; [| right; eexists; reflexivity].
  cbn [io_lift io_bind app].
  assert (forall member,
            (exists text,
               io_catch (do text <- read_text w zf member ; io_ret (Some text))
                 (fun e => do print ("Error reading " +:+ Path.name save_path
                                     +:+ ": " +:+ e) ; io_ret None)
               = ([], Returns (Some text)))
            \/ (exists line,
                  io_catch (do text <- read_text w zf member ; io_ret (Some text))
                    (fun e => do print ("Error reading " +:+ Path.name save_path
                                        +:+ ": " +:+ e) ; io_ret None)
                  = ([line], Returns None))) as Hread.
  { intros member. unfold read_text, decode.
    destruct (read zf member) as [data | e]; [| right; eexists; reflexivity].
    cbn [io_lift io_bind].
    destruct (Py.decode_utf8 data) as [text |];
      [left | right]; eexists; reflexivity. }
  destruct (bool_decide ("game.xml" ∈ namelist zf)).
  - destruct (Hread "game.xml") as [[text Ht] | [line Hl]]; [left | right]; eexists.
    + destruct (read_text w zf "game.xml") as [out [t | e]]; exact Ht.
    + destruct (read_text w zf "game.xml") as [out [t | e]]; exact Hl.
  - destruct (List.filter (fun f => Py.endswith f ".xml") (namelist zf)) as [| first rest].
    + right. eexists. reflexivity.
    + destruct (Hread first) as [[text Ht] | [line Hl]]; [left | right]; eexists.
      * destruct (read_text w zf first) as [out [t | e]]; exact Ht.
      * destruct (read_text w zf first) as [out [t | e]]; exact Hl.
Qed.

(** X1: whatever goes wrong inside the extractor is caught there: when
    the archive does not open, when the selected member cannot be read,
    and when its bytes are not UTF-8, it prints one [Error reading] line
    with the archive name and the cause, and returns no document. *)
Theorem X1_extractor_reports_failures (w : World) (save_path : string) :
  (forall e,
     zipfile_open w save_path = Raises e ->
     extract_xml_from_save w save_path
     = ([ ("Error reading " +:+ Path.name save_path +:+ ": " +:+ e) +:+ newline ],
        Returns None))
  /\ (forall zf member e,
        zipfile_open w save_path = Returns zf ->
        selected zf member ->
        read zf member = Raises e ->
        extract_xml_from_save w save_path
        = ([ ("Error reading " +:+ Path.name save_path +:+ ": " +:+ e) +:+ newline ],
           Returns None))
  /\ (forall zf member data,
        zipfile_open w save_path = Returns zf ->
        selected zf member ->
        read zf member = Returns data ->
        Py.decode_utf8 data = None ->
        extract_xml_from_save w save_path
        = ([ ("Error reading " +:+ Path.name save_path +:+ ": "
              +:+ decode_error w data) +:+ newline ],
           Returns None)).
Proof.
  split; [| split].
  - apply extract_open_fails.
  - apply extract_read_fails.
  - apply extract_decode_fails.
Qed.

Lemma X1_extractor_reports_failures_witness :
  extract_xml_from_save Faults.fault_world "unreadable.zip"
  = ([ "Error reading unreadable.zip: File is not a zip file" +:+ newline ],
     Returns None)
  /\ extract_xml_from_save Faults.fault_world "damaged.zip"
     = ([ "Error reading damaged.zip: Bad CRC-32 for file 'game.xml'" +:+ newline ],
        Returns None)
  /\ extract_xml_from_save Faults.fault_world "latin1.zip"
     = ([ "Error reading latin1.zip: 'utf-8' codec can't decode byte 0xff in position 0"
          +:+ newline ],
        Returns None).
Proof.
  split; [| split].
  - apply (proj1 (X1_extractor_reports_failures Faults.fault_world "unreadable.zip")).
    reflexivity.
  - apply (proj1 (proj2 (X1_extractor_reports_failures Faults.fault_world "damaged.zip"))
             Faults.damaged_archive "game.xml").
    + reflexivity.
    + left. split; [left |]; reflexivity.
    + reflexivity.
  - apply (proj2 (proj2 (X1_extractor_reports_failures Faults.fault_world "latin1.zip"))
             Faults.latin1_archive "save.xml" [xff; xfe]).
    + reflexivity.
    + right. split.
      * intros [H | []]; discriminate.
      * exists [], []. split; [reflexivity | split].
        -- exists "save"; reflexivity.
        -- intros g [].
    + reflexivity.
    + reflexivity.
Defined.

(** ** Failures of one analysis *)

Lemma analyze_parse_error (w : World) (save_path text e : string) :
  result (extract_xml_from_save w save_path) = Returns (Some text) ->
  text <> EmptyString ->
  fromstring w text = Raises e ->
  analyze_save_file w save_path
  = (stdout (extract_xml_from_save w save_path)
     ++ [ ("XML parse error in " +:+ Path.name save_path +:+ ": " +:+ e) +:+ newline ],
     Returns None).
Proof.
  intros Hx Hne Hparse. unfold analyze_save_file.
  destruct (extract_xml_from_save w save_path) as [out r].
  cbn [result snd] in Hx. subst r. cbn [io_bind Py.truthy Py.format_opt stdout fst].
  rewrite bool_decide_eq_false_2 by exact Hne. cbn [negb].
  rewrite Hparse. reflexivity.
Qed.

(** The three ways an analysis ends. *)
Lemma analyze_cases (w : World) (save_path : string) :
  (exists a, analyze_save_file w save_path = ([], Returns (Some a)))
  \/ analyze_save_file w save_path = ([], Returns None)
  \/ (exists line, analyze_save_file w save_path = ([line], Returns None)).
Proof.
  unfold analyze_save_file.
  destruct (extract_cases w save_path) as [[text ->] | [line ->]].
  - cbn [io_bind Py.truthy Py.format_opt].
    destruct (bool_decide (text = EmptyString)); cbn [negb]; [right; left; reflexivity |].
    destruct (fromstring w text) as [root | e].
    + left. eexists. reflexivity.
    + right. right. eexists. reflexivity.
  - right. right. exists line. reflexivity.
Qed.

(** X2: markup that does not parse makes the analysis print one [XML
    parse error] line with the archive name and the parser's message,
    after whatever the extractor printed, and return no analysis. *)
Theorem X2_parse_error_is_reported (w : World) (save_path text e : string) :
  result (extract_xml_from_save w save_path) = Returns (Some text) ->
  text <> EmptyString ->
  fromstring w text = Raises e ->
  analyze_save_file w save_path
  = (stdout (extract_xml_from_save w save_path)
     ++ [ ("XML parse error in " +:+ Path.name save_path +:+ ": " +:+ e) +:+ newline ],
     Returns None).
Proof. apply analyze_parse_error. Qed.

Lemma X2_parse_error_is_reported_witness :
  analyze_save_file Faults.fault_world "malformed.zip"
  = ([ "XML parse error in malformed.zip: no element found: line 1, column 6"
       +:+ newline ],
     Returns None).
Proof.
  apply (X2_parse_error_is_reported Faults.fault_world "malformed.zip"
           Faults.malformed_text "no element found: line 1, column 6").
  - vm_compute; reflexivity.
  - discriminate.
  - reflexivity.
Defined.



(** ** What an analysis holds *)

Lemma flags_fold (elems : list Element) (a : SaveFileAnalysis) :
  diadochi_as_nations (fold_left analyze_player elems a)
  = diadochi_as_nations a || existsb is_legacy (map record_of elems)
  /\ diadochi_as_dynasties (fold_left analyze_player elems a)
     = diadochi_as_dynasties a || existsb is_modern (map record_of elems)
  /\ has_diadochi (fold_left analyze_player elems a)
     = has_diadochi a
       || existsb (fun p => is_legacy p || is_modern p) (map record_of elems).
Proof.
  revert a; induction elems as [| e elems IH]; intros a; cbn [fold_left map existsb].
  - rewrite !orb_false_r. auto.
  - destruct (IH (analyze_player a e)) as (-> & -> & ->).
    cbn [analyze_player diadochi_as_nations diadochi_as_dynasties has_diadochi].
    change (player_data_of e) with (record_of e).
    destruct (is_legacy (record_of e)), (is_modern (record_of e)),
      (diadochi_as_nations a), (diadochi_as_dynasties a), (has_diadochi a);
      cbn [orb]; auto.
Qed.

Lemma metadata_fold (elems : list Element) (a : SaveFileAnalysis) :
  filepath (fold_left analyze_player elems a) = filepath a
  /\ filename (fold_left analyze_player elems a) = filename a
  /\ file_mtime (fold_left analyze_player elems a) = file_mtime a
  /\ game_id (fold_left analyze_player elems a) = game_id a
  /\ game_version (fold_left analyze_player elems a) = game_version a
  /\ save_date (fold_left analyze_player elems a) = save_date a.
Proof.
  revert a; induction elems as [| e elems IH]; intros a; cbn [fold_left].
  - repeat split.
  - destruct (IH (analyze_player a e)) as (-> & -> & -> & -> & -> & ->).
    repeat split.
Qed.

(** The flags of a successful analysis, read off its records. *)
Lemma analysis_flags (w : World) (save_path : string) (a : SaveFileAnalysis) :
  result (analyze_save_file w save_path) = Returns (Some a) ->
  diadochi_as_nations a = existsb is_legacy (players a)
  /\ diadochi_as_dynasties a = existsb is_modern (players a)
  /\ has_diadochi a = existsb (fun p => is_legacy p || is_modern p) (players a).
Proof.
  intros Hrun.
  destruct (analyze_save_file_some w save_path a Hrun) as (text & root & _ & _ & _ & ->).
  unfold analyze_root. rewrite players_fold. cbn [set_metadata new_analysis players app].
  apply (flags_fold _ (set_metadata (new_analysis w save_path) root)).
Qed.

Lemma existsb_legacy (l : list PlayerData) :
  existsb is_legacy l = true <-> exists p, In p l /\ legacy_form p.
Proof.
  rewrite existsb_exists. split; intros (p & Hp & H); exists p;
    (split; [exact Hp | apply is_legacy_spec, H]).
Qed.

Lemma existsb_modern (l : list PlayerData) :
  existsb is_modern l = true <-> exists p, In p l /\ modern_form p.
Proof.
  rewrite existsb_exists. split; intros (p & Hp & H); exists p;
    (split; [exact Hp | apply is_modern_spec, H]).
Qed.

(** X4: the two form flags of a successful analysis are exact: the
    legacy flag is set if and only if some record of the archive is of
    the legacy form, and the modern flag if and only if some record is
    of the modern form. *)
Theorem X4_form_flags_are_exact (w : World) (save_path : string) (a : SaveFileAnalysis) :
  result (analyze_save_file w save_path) = Returns (Some a) ->
  (diadochi_as_nations a = true <-> exists p, In p (players a) /\ legacy_form p)
  /\ (diadochi_as_dynasties a = true <-> exists p, In p (players a) /\ modern_form p).
Proof.
  intros Hrun. destruct (analysis_flags w save_path a Hrun) as (-> & -> & _).
  split; [apply existsb_legacy | apply existsb_modern].
Qed.

Lemma X4_form_flags_are_exact_witness :
  (diadochi_as_nations Samples.nested_analysis = true
   <-> exists p, In p (players Samples.nested_analysis) /\ legacy_form p)
  /\ (diadochi_as_dynasties Samples.nested_analysis = true
      <-> exists p, In p (players Samples.nested_analysis) /\ modern_form p).
Proof.
  apply (X4_form_flags_are_exact Samples.sample_world "nested.zip").
  vm_compute; reflexivity.
Defined.

(** X5: a document without any [Player] element below its root gives an
    analysis with an empty player list and the three flags false. *)
Theorem X5_no_player_no_flag
  (w : World) (save_path text : string) (root : Element) :
  result (extract_xml_from_save w save_path) = Returns (Some text) ->
  text <> EmptyString ->
  fromstring w text = Returns root ->
  List.filter (named "Player") (descendants root) = [] ->
  exists a,
    result (analyze_save_file w save_path) = Returns (Some a)
    /\ players a = []
    /\ has_diadochi a = false
    /\ diadochi_as_nations a = false
    /\ diadochi_as_dynasties a = false.
Proof.
  intros Hx Hne Hparse Hnone.
  pose proof (analyze_save_file_parsed w save_path text root Hx Hne Hparse) as Hrun.
  exists (analyze_root (new_analysis w save_path) root).
  assert (players (analyze_root (new_analysis w save_path) root) = []) as Hplayers.
  { rewrite analyze_root_players by reflexivity.
    unfold players_below_root. rewrite Hnone. reflexivity. }
  destruct (analysis_flags w save_path _ Hrun) as (Hn & Hd & Hh).
  rewrite Hplayers in Hn, Hd, Hh. auto.
Qed.

Lemma X5_no_player_no_flag_witness :
  exists a,
    result (analyze_save_file Faults.fault_world "noplayers.zip") = Returns (Some a)
    /\ players a = []
    /\ has_diadochi a = false
    /\ diadochi_as_nations a = false
    /\ diadochi_as_dynasties a = false.
Proof.
  apply (X5_no_player_no_flag Faults.fault_world "noplayers.zip"
           Faults.noplayers_text Faults.noplayers_root).
  - vm_compute; reflexivity.
  - discriminate.
  - reflexivity.
  - vm_compute; reflexivity.
Defined.

(** X6: a successful analysis carries the path it was given, the final
    component of that path as file name, the time stamp of the file, and
    as game id, version and save date the root's [GameId], [Version] and
    [SaveDate] attributes, unset when the root lacks them; the loop over
    the players changes none of them. *)
Theorem X6_metadata_of_analysis
  (w : World) (save_path text : string) (root : Element) :
  result (extract_xml_from_save w save_path) = Returns (Some text) ->
  text <> EmptyString ->
  fromstring w text = Returns root ->
  exists a,
    result (analyze_save_file w save_path) = Returns (Some a)
    /\ filepath a = save_path
    /\ filename a = Path.name save_path
    /\ file_mtime a = (st_mtime <$> stat w save_path)
    /\ game_id a = attrib root !! "GameId"
    /\ game_version a = attrib root !! "Version"
    /\ save_date a = attrib root !! "SaveDate".
Proof.
  intros Hx Hne Hparse.
  exists (analyze_root (new_analysis w save_path) root).
  split; [apply (analyze_save_file_parsed w save_path text root Hx Hne Hparse) |].
  unfold analyze_root.
  destruct (metadata_fold (ET.findall_descendants "Player" root)
              (set_metadata (new_analysis w save_path) root))
    as (-> & -> & -> & -> & -> & ->).
  cbn [set_metadata new_analysis filepath filename file_mtime game_id game_version
       save_date].
  unfold path_exists. destruct (stat w save_path); repeat split.
Qed.

Lemma X6_metadata_of_analysis_witness :
  exists a,
    result (analyze_save_file Faults.fault_world "noplayers.zip") = Returns (Some a)
    /\ filepath a = "noplayers.zip"
    /\ filename a = Path.name "noplayers.zip"
    /\ file_mtime a = (st_mtime <$> stat Faults.fault_world "noplayers.zip")
    /\ game_id a = attrib Faults.noplayers_root !! "GameId"
    /\ game_version a = attrib Faults.noplayers_root !! "Version"
    /\ save_date a = attrib Faults.noplayers_root !! "SaveDate".
Proof.
  apply (X6_metadata_of_analysis Faults.fault_world "noplayers.zip"
           Faults.noplayers_text Faults.noplayers_root).
  - vm_compute; reflexivity.
  - discriminate.
  - reflexivity.
Defined.

Lemma existsb_perm {A} (f : A -> bool) (l1 l2 : list A) :
  Permutation l1 l2 -> existsb f l1 = existsb f l2.
Proof.
  induction 1 as [| x l1 l2 _ IH | x y l | l1 l2 l3 _ IH1 _ IH2]; cbn [existsb].
  - reflexivity.
  - rewrite IH. reflexivity.
  - destruct (f x), (f y); reflexivity.
  - rewrite IH1. exact IH2.
Qed.

(** X7: the flags do not depend on the order of the [Player] elements:
    two successful analyses whose player lists are permutations of each
    other have the same three flags. *)
Theorem X7_flags_ignore_order
  (w1 w2 : World) (path1 path2 : string) (a1 a2 : SaveFileAnalysis) :
  result (analyze_save_file w1 path1) = Returns (Some a1) ->
  result (analyze_save_file w2 path2) = Returns (Some a2) ->
  Permutation (players a1) (players a2) ->
  has_diadochi a1 = has_diadochi a2
  /\ diadochi_as_nations a1 = diadochi_as_nations a2
  /\ diadochi_as_dynasties a1 = diadochi_as_dynasties a2.
Proof.
  intros H1 H2 Hperm.
  destruct (analysis_flags w1 path1 a1 H1) as (-> & -> & ->).
  destruct (analysis_flags w2 path2 a2 H2) as (-> & -> & ->).
  repeat split; apply existsb_perm, Hperm.
Qed.

Lemma X7_flags_ignore_order_witness :
  let a1 := analyze_root (new_analysis Faults.fault_world "both.zip") Faults.both_root in
  let a2 := analyze_root (new_analysis Faults.fault_world "swapped.zip")
                         Faults.both_root_swapped in
  has_diadochi a1 = has_diadochi a2
  /\ diadochi_as_nations a1 = diadochi_as_nations a2
  /\ diadochi_as_dynasties a1 = diadochi_as_dynasties a2.
Proof.
  intros a1 a2.
  apply (X7_flags_ignore_order Faults.fault_world Faults.fault_world
           "both.zip" "swapped.zip").
  - vm_compute; reflexivity.
  - vm_compute; reflexivity.
  - vm_compute. apply perm_swap.
Defined.

(** ** What the report shows *)


Lemma legacy_not_modern (p : PlayerData) : legacy_form p -> is_modern p = false.
Proof.
  intros Hl. destruct (is_modern p) eqn:Hm; [| reflexivity].
  exfalso. apply (forms_exclusive p). split; [exact Hl | apply is_modern_spec, Hm].
Qed.

Lemma modern_not_legacy (p : PlayerData) : modern_form p -> is_legacy p = false.
Proof.
  intros Hm. destruct (is_legacy p) eqn:Hl; [| reflexivity].
  exfalso. apply (forms_exclusive p). split; [apply is_legacy_spec, Hl | exact Hm].
Qed.

(** X8: for a record of the legacy form the report prints four lines:
    the player, its nation with its dynasty ([None] when the dynasty is
    missing or empty), the LEGACY label, and the expected modern pair
    from the rule table.  That pair always names [NATION_GREECE], and a
    player encoded with it would be of the modern form. *)
Theorem X8_legacy_record_report (p : PlayerData) :
  legacy_form p ->
  exists n sub,
    nation p = Some n
    /\ EXPECTED_MAPPINGS !! n = Some ("NATION_GREECE", sub)
    /\ modern_form {| id := id p; name := name p;
                      nation := Some "NATION_GREECE"; dynasty := Some sub |}
    /\ print_player p
       = ([ ("    Player: " +:+ Py.format_opt (name p)) +:+ newline;
            ("      Nation=" +:+ n +:+ ", Dynasty=" +:+ Py.or_else (dynasty p) "None")
            +:+ newline;
            "      → Format: LEGACY (separate nation)" +:+ newline;
            ("      → Expected modern: Nation=NATION_GREECE, Dynasty=" +:+ sub)
            +:+ newline ],
          Returns tt).
Proof.
  intros Hl. pose proof (proj2 (is_legacy_spec p) Hl) as Hin. unfold is_legacy in Hin.
  unfold print_player. rewrite Hin.
  destruct Hl as [Hn | [Hn | Hn]]; rewrite Hn.
  - exists "NATION_SELEUCUS", "DYNASTY_SELEUCID".
    split; [reflexivity | split; [vm_compute; reflexivity | split]].
    + split; [reflexivity | auto].
    + reflexivity.
  - exists "NATION_ANTIGONUS", "DYNASTY_ANTIGONID".
    split; [reflexivity | split; [vm_compute; reflexivity | split]].
    + split; [reflexivity | auto].
    + reflexivity.
  - exists "NATION_PTOLEMY", "DYNASTY_PTOLEMY".
    split; [reflexivity | split; [vm_compute; reflexivity | split]].
    + split; [reflexivity | auto].
    + reflexivity.
Qed.

Lemma X8_legacy_record_report_witness :
  exists n sub,
    nation (record_of Samples.seleucus_player) = Some n
    /\ EXPECTED_MAPPINGS !! n = Some ("NATION_GREECE", sub)
    /\ modern_form {| id := id (record_of Samples.seleucus_player);
                      name := name (record_of Samples.seleucus_player);
                      nation := Some "NATION_GREECE"; dynasty := Some sub |}
    /\ print_player (record_of Samples.seleucus_player)
       = ([ ("    Player: " +:+ Py.format_opt (name (record_of Samples.seleucus_player)))
            +:+ newline;
            ("      Nation=" +:+ n +:+ ", Dynasty="
             +:+ Py.or_else (dynasty (record_of Samples.seleucus_player)) "None")
            +:+ newline;
            "      → Format: LEGACY (separate nation)" +:+ newline;
            ("      → Expected modern: Nation=NATION_GREECE, Dynasty=" +:+ sub)
            +:+ newline ],
          Returns tt).
Proof.
  apply (X8_legacy_record_report (record_of Samples.seleucus_player)).
  left. vm_compute; reflexivity.
Defined.

(** X9: for a record of the modern form the report prints three lines:
    the player, [NATION_GREECE] with the dynasty as it stands, and the
    MODERN label; the rule table is not consulted. *)
Theorem X9_modern_record_report (p : PlayerData) :
  modern_form p ->
  exists d,
    dynasty p = Some d
    /\ print_player p
       = ([ ("    Player: " +:+ Py.format_opt (name p)) +:+ newline;
            ("      Nation=NATION_GREECE, Dynasty=" +:+ d) +:+ newline;
            "      → Format: MODERN (dynasty-based)" +:+ newline ],
          Returns tt).
Proof.
  intros Hm. pose proof (modern_not_legacy p Hm) as Hnl. unfold is_legacy in Hnl.
  unfold print_player. rewrite Hnl.
  destruct Hm as [Hn [Hd | [Hd | Hd]]]; rewrite Hn, Hd; eexists; split; reflexivity.
Qed.

Lemma X9_modern_record_report_witness :
  exists d,
    dynasty (record_of Samples.ptolemy_player) = Some d
    /\ print_player (record_of Samples.ptolemy_player)
       = ([ ("    Player: " +:+ Py.format_opt (name (record_of Samples.ptolemy_player)))
            +:+ newline;
            ("      Nation=NATION_GREECE, Dynasty=" +:+ d) +:+ newline;
            "      → Format: MODERN (dynasty-based)" +:+ newline ],
          Returns tt).
Proof.
  apply (X9_modern_record_report (record_of Samples.ptolemy_player)).
  split; [vm_compute; reflexivity | right; right; vm_compute; reflexivity].
Defined.



Lemma existsb_filter {A} (f : A -> bool) (l : list A) :
  existsb f l = nonempty (List.filter f l).
Proof.
  induction l as [| x l IH]; cbn [existsb List.filter]; [reflexivity |].
  destruct (f x); [reflexivity | exact IH].
Qed.

(** X11: an analysed archive is listed in the detailed breakdown, that
    is, its match flag is set, if and only if it has at least one record
    to show there. *)
Theorem X11_listed_archives_have_records
  (w : World) (save_path : string) (a : SaveFileAnalysis) :
  result (analyze_save_file w save_path) = Returns (Some a) ->
  has_diadochi a = true <-> diadochi_players a <> [].
Proof.
  intros Hrun. destruct (analysis_flags w save_path a Hrun) as (_ & _ & ->).
  rewrite existsb_filter. unfold diadochi_players.
  destruct (List.filter (fun p => is_legacy p || is_modern p) (players a));
    cbn [nonempty]; split; try discriminate; try reflexivity.
  intros H. contradiction.
Qed.

Lemma X11_listed_archives_have_records_witness :
  has_diadochi Samples.legacy_analysis = true
  <-> diadochi_players Samples.legacy_analysis <> [].
Proof.
  apply (X11_listed_archives_have_records Samples.sample_world "saves/a.zip").
  vm_compute; reflexivity.
Defined.

(** ** What the summary counts *)

Lemma analysis_of_some (w : World) (save_file : string) (a : SaveFileAnalysis) :
  analysis_of w save_file = Some a ->
  result (analyze_save_file w save_file) = Returns (Some a).
Proof.
  unfold analysis_of.
  destruct (result (analyze_save_file w save_file)) as [o | e]; [| discriminate].
  intros ->. reflexivity.
Qed.

Lemma batch_member (w : World) (files : list string) (a : SaveFileAnalysis) :
  In a (omap (analysis_of w) files) ->
  exists f, In f files /\ result (analyze_save_file w f) = Returns (Some a).
Proof.
  intros Ha. apply list_elem_of_In, list_elem_of_omap in Ha as (f & Hf & Ha).
  exists f. split; [apply list_elem_of_In, Hf | apply analysis_of_some, Ha].
Qed.

Lemma batch_flags (w : World) (files : list string) (a : SaveFileAnalysis) :
  In a (omap (analysis_of w) files) ->
  has_diadochi a = diadochi_as_nations a || diadochi_as_dynasties a.
Proof.
  intros Ha. destruct (batch_member w files a Ha) as (f & _ & Hrun).
  destruct (analyze_save_file_some w f a Hrun) as (text & root & _ & _ & _ & ->).
  apply flags_consistent_fold. reflexivity.
Qed.

Lemma filter_none {A} (f : A -> bool) (l : list A) :
  (forall x, In x l -> f x = false) -> List.filter f l = [].
Proof.
  induction l as [| x l IH]; intros H; cbn [List.filter]; [reflexivity |].
  rewrite (H x) by (left; reflexivity). apply IH. intros y Hy. apply H. right. exact Hy.
Qed.

Lemma filter_length_le {A} (f g : A -> bool) (l : list A) :
  (forall x, In x l -> f x = true -> g x = true) ->
  length (List.filter f l) <= length (List.filter g l).
Proof.
  induction l as [| x l IH]; intros H; cbn [List.filter]; [lia |].
  assert (length (List.filter f l) <= length (List.filter g l)) as Hl
    by (apply IH; intros y Hy; apply H; right; exact Hy).
  pose proof (H x (or_introl eq_refl)) as Hx.
  destruct (f x); [rewrite Hx by reflexivity |]; destruct (g x); cbn [length]; lia.
Qed.

Lemma filter_length_or {A} (f g h : A -> bool) (l : list A) :
  (forall x, In x l -> h x = f x || g x) ->
  length (List.filter h l) <= length (List.filter f l) + length (List.filter g l).
Proof.
  induction l as [| x l IH]; intros H; cbn [List.filter]; [cbn; lia |].
  assert (length (List.filter h l)
          <= length (List.filter f l) + length (List.filter g l)) as Hl
    by (apply IH; intros y Hy; apply H; right; exact Hy).
  rewrite (H x) by (left; reflexivity).
  destruct (f x), (g x); cbn [orb length]; lia.
Qed.

(** X12: when no analysed archive of the batch has a match, the summary
    consists of the banner and the four counts, the last three being 0:
    no verdict on the formats and no detailed breakdown is printed. *)
Theorem X12_summary_without_match (w : World) (files : list string) :
  (forall a, In a (omap (analysis_of w) files) -> has_diadochi a = false) ->
  print_analysis_summary w (omap (analysis_of w) files)
  = ( [ (newline +:+ Py.repeat_str "=" 80) +:+ newline;
        "DYNASTY FORMAT ANALYSIS SUMMARY" +:+ newline;
        Py.repeat_str "=" 80 +:+ newline;
        (newline +:+ "Total save files analyzed: "
         +:+ Py.str_of_nat (length (omap (analysis_of w) files))) +:+ newline;
        "Files with Diadochi (Greek successors): 0" +:+ newline;
        "  - Encoded as separate nations: 0" +:+ newline;
        "  - Encoded as dynasties: 0" +:+ newline ],
      Returns tt ).
Proof.
  intros Hnone.
  assert (forall a, In a (omap (analysis_of w) files) ->
                    diadochi_as_nations a = false /\ diadochi_as_dynasties a = false)
    as Hforms.
  { intros a Ha. pose proof (batch_flags w files a Ha) as Hflags.
    rewrite (Hnone a Ha) in Hflags.
    destruct (diadochi_as_nations a), (diadochi_as_dynasties a); try discriminate; auto. }
  unfold print_analysis_summary, print_counts, print_breakdown.
  rewrite (filter_none has_diadochi) by exact Hnone.
  rewrite (filter_none diadochi_as_nations) by (intros a Ha; apply (Hforms a Ha)).
  rewrite (filter_none diadochi_as_dynasties) by (intros a Ha; apply (Hforms a Ha)).
  reflexivity.
Qed.

Lemma X12_summary_without_match_witness :
  print_analysis_summary Faults.fault_world
    (omap (analysis_of Faults.fault_world) ["noplayers.zip"; "unreadable.zip"])
  = ( [ (newline +:+ Py.repeat_str "=" 80) +:+ newline;
        "DYNASTY FORMAT ANALYSIS SUMMARY" +:+ newline;
        Py.repeat_str "=" 80 +:+ newline;
        (newline +:+ "Total save files analyzed: "
         +:+ Py.str_of_nat
               (length (omap (analysis_of Faults.fault_world)
                             ["noplayers.zip"; "unreadable.zip"]))) +:+ newline;
        "Files with Diadochi (Greek successors): 0" +:+ newline;
        "  - Encoded as separate nations: 0" +:+ newline;
        "  - Encoded as dynasties: 0" +:+ newline ],
      Returns tt ).
Proof.
  apply (X12_summary_without_match Faults.fault_world
           ["noplayers.zip"; "unreadable.zip"]).
  intros a Ha. vm_compute in Ha. destruct Ha as [<- | []]. reflexivity.
Defined.

(** X13: over the analyses of a batch, the printed counts are
    consistent: the legacy count and the modern count are each at most
    the count of archives with a match, which is at most their sum and
    at most the number of archives analysed. *)
Theorem X13_counts_are_consistent (w : World) (files : list string) :
  let analyses := omap (analysis_of w) files in
  length (List.filter diadochi_as_nations analyses)
  <= length (List.filter has_diadochi analyses)
  /\ length (List.filter diadochi_as_dynasties analyses)
     <= length (List.filter has_diadochi analyses)
  /\ length (List.filter has_diadochi analyses)
     <= length (List.filter diadochi_as_nations analyses)
        + length (List.filter diadochi_as_dynasties analyses)
  /\ length (List.filter has_diadochi analyses) <= length analyses
  /\ length analyses <= length files.
Proof.
  intros analyses. split; [| split; [| split; [| split]]].
  - apply filter_length_le. intros a Ha Hn.
    rewrite (batch_flags w files a Ha), Hn. reflexivity.
  - apply filter_length_le. intros a Ha Hd.
    rewrite (batch_flags w files a Ha), Hd. apply orb_true_r.
  - apply filter_length_or. intros a Ha. apply (batch_flags w files a Ha).
  - apply List.filter_length_le.
  - unfold analyses. clear analyses.
    induction files as [| f files IH]; cbn [omap list_omap length]; [lia |].
    destruct (analysis_of w f); cbn [length]; lia.
Qed.

(** X14: one archive that holds a record of the legacy form and a record
    of the modern form is enough for the both-formats warning: the
    summary of that archive alone prints it between the counts and the
    breakdown. *)
Theorem X14_both_forms_in_one_archive
  (w : World) (save_path : string) (a : SaveFileAnalysis) (p q : PlayerData) :
  result (analyze_save_file w save_path) = Returns (Some a) ->
  In p (players a) -> legacy_form p ->
  In q (players a) -> modern_form q ->
  stdout (print_analysis_summary w [a])
  = stdout (print_counts [a])
    ++ [ (newline +:+ "⚠️  WARNING: BOTH FORMATS DETECTED!") +:+ newline;
         "   This confirms the format changed between game versions." +:+ newline ]
    ++ stdout (print_breakdown w [a]).
Proof.
  intros Hrun Hp Hlegacy Hq Hmodern.
  destruct (analysis_flags w save_path a Hrun) as (Hn & Hd & _).
  assert (diadochi_as_nations a = true) as Hn'
    by (rewrite Hn; apply existsb_legacy; eauto).
  assert (diadochi_as_dynasties a = true) as Hd'
    by (rewrite Hd; apply existsb_modern; eauto).
  rewrite summary_stdout. cbn [List.filter]. rewrite Hn', Hd'. reflexivity.
Qed.

Lemma X14_both_forms_in_one_archive_witness :
  let a := analyze_root (new_analysis Faults.fault_world "both.zip") Faults.both_root in
  stdout (print_analysis_summary Faults.fault_world [a])
  = stdout (print_counts [a])
    ++ [ (newline +:+ "⚠️  WARNING: BOTH FORMATS DETECTED!") +:+ newline;
         "   This confirms the format changed between game versions." +:+ newline ]
    ++ stdout (print_breakdown Faults.fault_world [a]).
Proof.
  intros a.
  apply (X14_both_forms_in_one_archive Faults.fault_world "both.zip" a
           (record_of Samples.seleucus_player) (record_of Samples.ptolemy_player)).
  - vm_compute; reflexivity.
  - vm_compute; left; reflexivity.
  - left; vm_compute; reflexivity.
  - vm_compute; right; left; reflexivity.
  - split; [vm_compute; reflexivity | right; right; vm_compute; reflexivity].
Defined.

(** ** More on discovery *)

Section DiscoveryMore.

Variable w : World.

Lemma decorate_all_stat (paths : list string) :
  Forall (fun p => stat w p <> None) paths ->
  exists keyed, decorate w paths = Returns keyed.
Proof.
  induction 1 as [| p rest Hp _ [keyed IH]]; cbn [decorate]; [eauto |].
  unfold path_mtime. destruct (stat w p); [| contradiction].
  rewrite IH. eauto.
Qed.


Lemma keyed_filter (t : Z) (keyed : list (Z * string)) :
  Forall (fun x => path_mtime w (snd x) = Returns (fst x)) keyed ->
  List.filter (modified_at w t) (map snd keyed)
  = map snd (List.filter (fun y => (fst y =? t)%Z) keyed).
Proof.
  induction 1 as [| x l Hx _ IH]; cbn [map List.filter]; [reflexivity |].
  rewrite IH. unfold modified_at at 1. unfold path_mtime in Hx.
  destruct (stat w (snd x)) as [st |]; [| discriminate].
  injection Hx as ->. destruct (fst x =? t)%Z; reflexivity.
Qed.


End DiscoveryMore.



(** X16: the sort is stable: among the files discovery returns, those
    with the same modification time keep the order in which they were
    found. *)
Theorem X16_equal_times_keep_discovery_order
  (w : World) (search_paths files : list string) (t : Z) :
  result (find_save_files w search_paths) = Returns files ->
  List.filter (modified_at w t) files
  = List.filter (modified_at w t) (flat_map (found_at w) search_paths).
Proof.
  rewrite find_save_files_unfold_result. unfold sorted_by_mtime.
  destruct (decorate w (flat_map (found_at w) search_paths)) as [keyed | e] eqn:Hkeyed;
    [| discriminate].
  intros [= <-]. destruct (decorate_returns w _ _ Hkeyed) as [Hmap Hkeys].
  rewrite <- Hmap, (keyed_filter w t keyed Hkeys).
  rewrite keyed_filter.
  - rewrite sort_keyed_stable. reflexivity.
  - rewrite Forall_forall in *. intros x Hx. apply Hkeys.
    rewrite <- (sort_keyed_perm keyed). exact Hx.
Qed.

Lemma X16_equal_times_keep_discovery_order_witness :
  result (find_save_files Faults.fault_world ["tie"])
  = Returns ["tie/z.zip"; "tie/a.zip"; "tie/late.zip"]
  /\ List.filter (modified_at Faults.fault_world 15)
                 ["tie/z.zip"; "tie/a.zip"; "tie/late.zip"]
     = List.filter (modified_at Faults.fault_world 15)
                   (flat_map (found_at Faults.fault_world) ["tie"]).
Proof.
  assert (result (find_save_files Faults.fault_world ["tie"])
          = Returns ["tie/z.zip"; "tie/a.zip"; "tie/late.zip"]) as Hfound
    by (vm_compute; reflexivity).
  split; [exact Hfound |].
  exact (X16_equal_times_keep_discovery_order _ _ _ 15%Z Hfound).
Defined.

(** X17: an explicit path that exists but is neither a directory nor a
    regular file with the suffix [.zip] is ignored without any message;
    given alone, it leaves the run with no save file and exit code 1. *)
Theorem X17_non_archive_is_ignored (w : World) (prog p : string) :
  path_exists w p = true ->
  is_dir w p = false ->
  is_file w p = false \/ Path.suffix p <> ".zip" ->
  find_save_files w [p] = ([], Returns [])
  /\ main w prog [p]
     = (preamble [p] ++ [ (newline +:+ "No save files found!") +:+ newline ],
        Returns 1%Z).
Proof.
  intros Hex Hdir Hnot.
  assert (find_save_files w [p] = ([], Returns [])) as Hfind.
  { rewrite find_save_files_unfold. cbn [flat_map app]. rewrite Hex.
    unfold found_at. rewrite Hex, Hdir. cbn [negb].
    destruct Hnot as [-> | Hsuffix]; [reflexivity |].
    rewrite (bool_decide_eq_false_2 _ Hsuffix), andb_false_r. reflexivity. }
  split; [exact Hfind |].
  rewrite (main_after_discovery w prog [p] []).
  - unfold resolve_search_paths, Path.of_str. cbn [length Nat.ltb Nat.leb map].
    rewrite Hfind. reflexivity.
  - discriminate.
  - unfold resolve_search_paths, Path.of_str. cbn [length Nat.ltb Nat.leb map].
    rewrite Hfind. reflexivity.
Qed.

Lemma X17_non_archive_is_ignored_witness :
  find_save_files Faults.fault_world ["notes.txt"] = ([], Returns [])
  /\ main Faults.fault_world "prog" ["notes.txt"]
     = (preamble ["notes.txt"] ++ [ (newline +:+ "No save files found!") +:+ newline ],
        Returns 1%Z).
Proof.
  apply (X17_non_archive_is_ignored Faults.fault_world "prog" "notes.txt").
  - reflexivity.
  - reflexivity.
  - right. vm_compute. discriminate.
Defined.

(** X18: search paths are visited independently and nothing is
    deduplicated: for two lists of search paths taken together,
    discovery prints the messages of the first list followed by those
    of the second, and returns a permutation of the files of the first
    list followed by the files of the second. *)
Theorem X18_discovery_of_concatenation
  (w : World) (paths1 paths2 files1 files2 : list string) :
  result (find_save_files w paths1) = Returns files1 ->
  result (find_save_files w paths2) = Returns files2 ->
  stdout (find_save_files w (paths1 ++ paths2))
  = stdout (find_save_files w paths1) ++ stdout (find_save_files w paths2)
  /\ exists files,
       result (find_save_files w (paths1 ++ paths2)) = Returns files
       /\ Permutation files (files1 ++ files2).
Proof.
  rewrite !find_save_files_unfold. cbn [stdout result fst snd].
  intros H1 H2. split; [apply flat_map_app |].
  destruct (sorted_by_mtime_returns w _ _ H1) as (_ & Hperm1 & Hstat1).
  destruct (sorted_by_mtime_returns w _ _ H2) as (_ & Hperm2 & Hstat2).
  rewrite flat_map_app.
  assert (Forall (fun p => stat w p <> None)
                 (flat_map (found_at w) paths1 ++ flat_map (found_at w) paths2)) as Hall.
  { rewrite <- Hperm1, <- Hperm2. apply Forall_app. auto. }
  unfold sorted_by_mtime at 1.
  destruct (decorate_all_stat w _ Hall) as [keyed Hkeyed]. rewrite Hkeyed.
  eexists. split; [reflexivity |].
  destruct (decorate_returns w _ _ Hkeyed) as [Hmap _].
  rewrite Hperm1, Hperm2, <- Hmap. apply Permutation_map, sort_keyed_perm.
Qed.

Lemma X18_discovery_of_concatenation_witness :
  exists files,
    result (find_save_files Faults.fault_world (["both.zip"] ++ ["tie"; "both.zip"]))
    = Returns files
    /\ Permutation files (["both.zip"]
                          ++ ["both.zip"; "tie/z.zip"; "tie/a.zip"; "tie/late.zip"]).
Proof.
  apply (X18_discovery_of_concatenation Faults.fault_world
           ["both.zip"] ["tie"; "both.zip"]); vm_compute; reflexivity.
Defined.



(** ** More on the loop over the save files *)

Lemma analysis_quiet (w : World) (save_file : string) (a : SaveFileAnalysis) :
  analysis_of w save_file = Some a -> stdout (analyze_save_file w save_file) = [].
Proof.
  unfold analysis_of.
  destruct (analyze_cases w save_file) as [[a' ->] | [-> | [line ->]]];
    cbn [result stdout fst snd]; [reflexivity | discriminate | discriminate].
Qed.

Lemma analysis_one_line (w : World) (save_file : string) :
  length (stdout (analyze_save_file w save_file)) <= 1.
Proof.
  destruct (analyze_cases w save_file) as [[a' ->] | [-> | [line ->]]];
    cbn [stdout fst length]; lia.
Qed.

(** X20: a failing archive does not disturb the rest of the batch: the
    loop never raises, the analyses it collects are those of the files
    before and after the failing one, unchanged and in order, and the
    failing file only adds its own progress report. *)
Theorem X20_failure_is_isolated
  (w : World) (before after : list string) (bad : string) :
  analysis_of w bad = None ->
  io_fold (process_save_file w) (before ++ bad :: after) []
  = ( flat_map (progress_report w) before
      ++ progress_report w bad
      ++ flat_map (progress_report w) after,
      Returns (omap (analysis_of w) before ++ omap (analysis_of w) after) ).
Proof.
  intros Hbad. rewrite process_loop. cbn [app].
  rewrite flat_map_app, omap_app. cbn [flat_map omap list_omap].
  rewrite Hbad. reflexivity.
Qed.

Lemma X20_failure_is_isolated_witness :
  result (io_fold (process_save_file Faults.fault_world)
                  (["both.zip"] ++ "damaged.zip" :: ["modern.zip"]) [])
  = Returns (omap (analysis_of Faults.fault_world) ["both.zip"]
             ++ omap (analysis_of Faults.fault_world) ["modern.zip"]).
Proof.
  rewrite (X20_failure_is_isolated Faults.fault_world ["both.zip"] ["modern.zip"]
             "damaged.zip").
  - reflexivity.
  - vm_compute; reflexivity.
Defined.

(** X21: the progress report of a file whose analysis succeeds has two
    texts: the [Analyzing] text with the file name, and a status with a
    check mark when the archive has a match, a dash when it has none,
    and the number of its players.  When the analysis fails the report
    is the [Analyzing] text, at most one diagnostic line, and the failed
    status. *)
Theorem X21_progress_report_shape (w : World) (save_file : string) :
  (forall a,
     analysis_of w save_file = Some a ->
     progress_report w save_file
     = [ ("Analyzing: " +:+ Path.name save_file +:+ "...") +:+ " ";
         ((if has_diadochi a then "✓" else "-") +:+ " ("
          +:+ Py.str_of_nat (length (players a)) +:+ " players)") +:+ newline ])
  /\ (analysis_of w save_file = None ->
      exists diagnostic,
        length diagnostic <= 1
        /\ progress_report w save_file
           = [ ("Analyzing: " +:+ Path.name save_file +:+ "...") +:+ " " ]
             ++ diagnostic
             ++ [ "✗ (failed)" +:+ newline ]).
Proof.
  unfold progress_report. rewrite process_save_file_unfold. cbn [stdout fst].
  split.
  - intros a Ha. rewrite Ha, (analysis_quiet w save_file a Ha). reflexivity.
  - intros Hnone. rewrite Hnone. exists (stdout (analyze_save_file w save_file)).
    split; [apply analysis_one_line | reflexivity].
Qed.

Lemma X21_progress_report_shape_witness :
  progress_report Faults.fault_world "noplayers.zip"
  = [ "Analyzing: noplayers.zip... "; "- (0 players)" +:+ newline ]
  /\ exists diagnostic,
       length diagnostic <= 1
       /\ progress_report Faults.fault_world "damaged.zip"
          = [ ("Analyzing: " +:+ Path.name "damaged.zip" +:+ "...") +:+ " " ]
            ++ diagnostic
            ++ [ "✗ (failed)" +:+ newline ].
Proof.
  split.
  - rewrite (proj1 (X21_progress_report_shape Faults.fault_world "noplayers.zip")
               (analyze_root (new_analysis Faults.fault_world "noplayers.zip")
                             Faults.noplayers_root)).
    + vm_compute; reflexivity.
    + vm_compute; reflexivity.
  - apply (proj2 (X21_progress_report_shape Faults.fault_world "damaged.zip")).
    vm_compute; reflexivity.
Defined.

(** X22: the loop accounts for every file exactly once: it never raises,
    and the number of analyses it collects plus the number of files
    reported as failed is the number of files. *)
Theorem X22_every_file_is_accounted_for (w : World) (files : list string) :
  result (io_fold (process_save_file w) files []) = Returns (omap (analysis_of w) files)
  /\ length (omap (analysis_of w) files)
     + length (List.filter (fun f => negb (analyzable w f)) files)
     = length files.
Proof.
  split; [rewrite process_loop; reflexivity |].
  induction files as [| f files IH]; cbn [omap list_omap List.filter length];
    [reflexivity |].
  unfold analyzable at 1.
  destruct (analysis_of w f); cbn [negb length]; lia.
Qed.

(** ** More on the extractor *)

Lemma first_xml_member (names : list string) :
  (exists f, In f names /\ ends_in_xml f) ->
  exists before member after,
    names = before ++ member :: after
    /\ ends_in_xml member
    /\ forall g, In g before -> ~ ends_in_xml g.
Proof.
  induction names as [| n names IH]; intros (f & Hf & Hxml); [destruct Hf |].
  destruct (Py.endswith n ".xml") eqn:Hn.
  - exists [], n, names. split; [reflexivity | split].
    + apply endswith_spec, Hn.
    + intros g [].
  - destruct Hf as [-> | Hf].
    + apply endswith_spec in Hxml. congruence.
    + destruct (IH (ex_intro _ f (conj Hf Hxml))) as (before & member & after & -> & Hm & Hb).
      exists (n :: before), member, after. split; [reflexivity | split; [exact Hm |]].
      intros g [<- | Hg]; [apply endswith_false, Hn | apply Hb, Hg].
Qed.

Lemma some_member_selected (zf : ZipFile) :
  (exists f, In f (namelist zf) /\ ends_in_xml f) ->
  exists member, selected zf member.
Proof.
  intros Hsome.
  destruct (bool_decide_reflect ("game.xml" ∈ namelist zf)) as [Hgame | Hnot].
  - exists "game.xml". left. split; [apply list_elem_of_In, Hgame | reflexivity].
  - destruct (first_xml_member _ Hsome) as (before & member & after & Hn & Hm & Hb).
    exists member. right. split; [rewrite <- list_elem_of_In; exact Hnot |].
    exists before, after. auto.
Qed.

(** X23: for an archive that opens, the extractor prints the [No .xml
    file found] warning if and only if no listed member name ends in
    [.xml]; with such a member it never prints the warning, whatever
    happens while reading it. *)
Theorem X23_warning_only_without_document
  (w : World) (save_path : string) (zf : ZipFile) :
  zipfile_open w save_path = Returns zf ->
  extract_xml_from_save w save_path
  = ([ ("Warning: No .xml file found in " +:+ Path.name save_path) +:+ newline ],
     Returns None)
  <-> forall f, In f (namelist zf) -> ~ ends_in_xml f.
Proof.
  intros Hopen. split; [| apply extract_no_document, Hopen].
  intros Hwarn f Hf Hxml.
  destruct (some_member_selected zf (ex_intro _ f (conj Hf Hxml))) as [member Hsel].
  rewrite (extract_selected w save_path zf member Hopen Hsel) in Hwarn.
  unfold read_text, decode in Hwarn.
  destruct (read zf member) as [data | e]; cbn in Hwarn; [| discriminate].
  destruct (Py.decode_utf8 data); cbn in Hwarn; discriminate.
Qed.

Lemma X23_warning_only_without_document_witness :
  extract_xml_from_save Samples.sample_world "noxml.zip"
  = ([ ("Warning: No .xml file found in " +:+ Path.name "noxml.zip") +:+ newline ],
     Returns None)
  <-> forall f, In f (namelist (Samples.archive [("readme.txt", "hello")])) ->
                ~ ends_in_xml f.
Proof.
  apply (X23_warning_only_without_document Samples.sample_world "noxml.zip").
  reflexivity.
Defined.

(** ** Whole runs *)

(** X24: a run on one explicit [.zip] file that does not open still
    returns 0: the file is found, reported as failed with the cause, and
    the summary of an empty batch is printed. *)
Theorem X24_single_unreadable_archive (w : World) (prog p e : string) :
  is_file w p = true ->
  Path.suffix p = ".zip" ->
  zipfile_open w p = Raises e ->
  main w prog [p]
  = ( preamble [p]
      ++ [ (newline +:+ "Found 1 save file(s)") +:+ newline;
           ("Analyzing..." +:+ newline) +:+ newline;
           ("Analyzing: " +:+ Path.name p +:+ "...") +:+ " ";
           ("Error reading " +:+ Path.name p +:+ ": " +:+ e) +:+ newline;
           "✗ (failed)" +:+ newline ]
      ++ stdout (print_analysis_summary w []),
      Returns 0%Z ).
Proof.
  intros Hfile Hsuffix Hopen.
  assert (stat w p <> None) as Hstat
    by (unfold is_file in Hfile; destruct (stat w p); [discriminate | discriminate]).
  assert (find_save_files w [p] = ([], Returns [p])) as Hfind.
  { rewrite find_save_files_unfold. cbn [flat_map app]. unfold found_at, path_exists.
    rewrite Hfile, Hsuffix. destruct (stat w p) as [st |] eqn:Hst; [| contradiction].
    rewrite bool_decide_eq_true_2 by reflexivity. cbn [negb andb app].
    unfold sorted_by_mtime. cbn [decorate]. unfold path_mtime. rewrite Hst.
    reflexivity. }
  assert (analyze_save_file w p
          = ([ ("Error reading " +:+ Path.name p +:+ ": " +:+ e) +:+ newline ],
             Returns None)) as Hrun.
  { unfold analyze_save_file. rewrite (extract_open_fails w p e Hopen). reflexivity. }
  rewrite (main_after_discovery w prog [p] [p]).
  - unfold resolve_search_paths, Path.of_str. cbn [length Nat.ltb Nat.leb map].
    rewrite Hfind. cbn [stdout fst app flat_map omap list_omap].
    unfold progress_report. rewrite process_save_file_unfold.
    unfold analysis_of. rewrite Hrun. cbn [stdout result fst snd app].
    rewrite <- ?app_assoc. reflexivity.
  - discriminate.
  - unfold resolve_search_paths, Path.of_str. cbn [length Nat.ltb Nat.leb map].
    rewrite Hfind. reflexivity.
Qed.

Lemma X24_single_unreadable_archive_witness :
  result (main Faults.fault_world "prog" ["unreadable.zip"]) = Returns 0%Z.
Proof.
  rewrite (X24_single_unreadable_archive Faults.fault_world "prog" "unreadable.zip"
             "File is not a zip file").
  - reflexivity.
  - reflexivity.
  - vm_compute; reflexivity.
  - reflexivity.
Defined.

(** X25: every archive analysed in a run carries the time stamp by which
    its file was sorted: for the files discovery returned, each analysis
    of the batch has as [file_mtime] the [st_mtime] of its own file. *)
Theorem X25_analyses_keep_sort_key
  (w : World) (search_paths files : list string) (a : SaveFileAnalysis) :
  result (find_save_files w search_paths) = Returns files ->
  In a (omap (analysis_of w) files) ->
  In (filepath a) files
  /\ exists t, file_mtime a = Some t /\ path_mtime w (filepath a) = Returns t.
Proof.
  intros Hfound Ha. rewrite find_save_files_unfold_result in Hfound.
  destruct (sorted_by_mtime_returns w _ _ Hfound) as (_ & _ & Hstat).
  apply list_elem_of_In, list_elem_of_omap in Ha as (f & Hf & Ha).
  destruct (analysis_filepath w f a Ha) as [-> ->].
  split; [apply list_elem_of_In, Hf |].
  rewrite Forall_forall in Hstat. specialize (Hstat f Hf).
  cbn [new_analysis file_mtime]. unfold path_exists, path_mtime.
  destruct (stat w f) as [st |]; [| contradiction]. eauto.
Qed.

Lemma X25_analyses_keep_sort_key_witness :
  In (filepath Samples.legacy_analysis) ["saves/b.zip"; "saves/c.zip"; "saves/a.zip"]
  /\ exists t,
       file_mtime Samples.legacy_analysis = Some t
       /\ path_mtime Samples.sample_world (filepath Samples.legacy_analysis) = Returns t.
Proof.
  apply (X25_analyses_keep_sort_key Samples.sample_world ["saves"]).
  - vm_compute; reflexivity.
  - vm_compute. right. left. reflexivity.
Defined.
